(** * ShopSentinel: the scan endpoint (api/scan, [POST])

    A shallow embedding of the route handler: [normalizeUrl],
    [toBoolHeader] and [POST], with the platform pieces the handler calls
    ([String.prototype.trim], the two regular-expression literals, [Headers.get],
    [new URL], [fetch], [req.json]) modelled next to them.

    Strings are [string]s read as UTF-8 byte sequences, as in the source file
    and on the wire.  The URL parser and the network are parameters of the
    development: the handler is verified for every parser and every network. *)

From Stdlib Require Import String Ascii List ZArith NArith Bool Lia.
Import ListNotations.

Local Open Scope string_scope.
Local Open Scope list_scope.

(** ** Characters and strings *)

Definition code (c : ascii) : N := N_of_ascii c.

(** ASCII upper-casing: the canonicalisation the [i] flag applies to a
    pattern character and to an input character.  Bytes of 128 and above are
    left alone (a non-ASCII character never canonicalises to an ASCII one). *)
Definition upcase (c : ascii) : ascii :=
  if (97 <=? code c)%N && (code c <=? 122)%N
  then ascii_of_N (code c - 32) else c.

(** ASCII lower-casing, used for header names. *)
Definition downcase (c : ascii) : ascii :=
  if (65 <=? code c)%N && (code c <=? 90)%N
  then ascii_of_N (code c + 32) else c.

Fixpoint smap (f : ascii -> ascii) (s : string) : string :=
  match s with
  | EmptyString => EmptyString
  | String c r => String (f c) (smap f r)
  end.

Definition toUpperCase : string -> string := smap upcase.
Definition toLowerCase : string -> string := smap downcase.

Fixpoint srev_onto (s acc : string) : string :=
  match s with
  | EmptyString => acc
  | String c r => srev_onto r (String c acc)
  end.

Definition srev (s : string) : string := srev_onto s EmptyString.

(** ** [String.prototype.trim]

    The characters removed are ECMAScript's WhiteSpace and LineTerminator code
    points, here in their UTF-8 encodings of one, two and three bytes. *)

(** U+0009 .. U+000D and U+0020. *)
Definition isSpace1 (c : ascii) : bool :=
  ((9 <=? code c)%N && (code c <=? 13)%N) || (code c =? 32)%N.

(** U+00A0. *)
Definition isSpace2 (c1 c2 : ascii) : bool :=
  (code c1 =? 194)%N && (code c2 =? 160)%N.

(** U+1680, U+2000 .. U+200A, U+2028, U+2029, U+202F, U+205F, U+3000, U+FEFF. *)
Definition isSpace3 (c1 c2 c3 : ascii) : bool :=
  let a := code c1 in
  let b := code c2 in
  let d := code c3 in
  ((a =? 225) && (b =? 154) && (d =? 128))%N
  || ((a =? 226)%N && (b =? 128)%N
      && (((128 <=? d)%N && (d <=? 138)%N)
          || (d =? 168)%N || (d =? 169)%N || (d =? 175)%N))
  || ((a =? 226) && (b =? 129) && (d =? 159))%N
  || ((a =? 227) && (b =? 128) && (d =? 128))%N
  || ((a =? 239) && (b =? 187) && (d =? 191))%N.

(** Strips white space at the front.  With [back = true] the string is read
    reversed (last byte first), so the bytes of a character arrive in the
    opposite order. *)
Fixpoint strip (back : bool) (s : string) : string :=
  match s with
  | EmptyString => EmptyString
  | String c1 r1 =>
    if isSpace1 c1 then strip back r1 else
    match r1 with
    | EmptyString => s
    | String c2 r2 =>
      if (if back then isSpace2 c2 c1 else isSpace2 c1 c2) then strip back r2 else
      match r2 with
      | EmptyString => s
      | String c3 r3 =>
        if (if back then isSpace3 c3 c2 c1 else isSpace3 c1 c2 c3)
        then strip back r3 else s
      end
    end
  end.

Definition trimStart (s : string) : string := strip false s.
Definition trimEnd (s : string) : string := srev (strip true (srev s)).
Definition trim (s : string) : string := trimEnd (trimStart s).

(** ** Regular expressions

    The fragment the two literals of the handler need: a character, an optional
    item, a sequence.  [rmatch] returns the remainders of the input after each
    way of matching, in backtracking order; a pattern anchored with [^] is
    tested at position 0 only. *)

Inductive Regex : Type :=
| REps : Regex
| RChar : ascii -> Regex
| ROpt : Regex -> Regex
| RSeq : Regex -> Regex -> Regex.

Fixpoint rmatch (ignoreCase : bool) (r : Regex) (s : string) : list string :=
  match r with
  | REps => [s]
  | RChar p =>
    match s with
    | EmptyString => []
    | String c rest =>
      if (if ignoreCase then Ascii.eqb (upcase c) (upcase p) else Ascii.eqb c p)
      then [rest] else []
    end
  | ROpt r1 => rmatch ignoreCase r1 s ++ [s]
  | RSeq r1 r2 => flat_map (rmatch ignoreCase r2) (rmatch ignoreCase r1 s)
  end.

Definition test (ignoreCase : bool) (r : Regex) (s : string) : bool :=
  match rmatch ignoreCase r s with
  | [] => false
  | _ :: _ => true
  end.

Fixpoint RLit (s : string) : Regex :=
  match s with
  | EmptyString => REps
  | String c r => RSeq (RChar c) (RLit r)
  end.

(** [/^https?:\/\//i] *)
Definition re_http_or_https : Regex :=
  RSeq (RLit "http") (RSeq (ROpt (RChar "s")) (RLit "://")).

(** [/^https:\/\//i] *)
Definition re_https : Regex := RLit "https://".

(** ** Thrown values and completions *)

Inductive Thrown : Type :=
| ErrorObject (message : string)    (* an instance of Error *)
| OtherValue.                       (* anything else that was thrown *)

Inductive Completion (A : Type) : Type :=
| Normal (a : A)
| Throw (e : Thrown).
Arguments Normal {A} a.
Arguments Throw {A} e.

(** ** [new URL] and [normalizeUrl] *)

Module URL.
Record t : Type := mk {
  host : string;       (* host name, with the port when it is kept *)
  pathname : string;
  search : string
}.
End URL.

Module ScanTarget.
Record t : Type := mk {
  httpsUrl : string;
  httpUrl : string;
  host : string
}.
End ScanTarget.

Section Normalizer.

(** [new URL(s)]: the parsed URL, or the TypeError it throws. *)
Variable newURL : string -> Completion URL.t.

Definition prefixed (input : string) : string :=
  let url := trim input in
  if negb (test true re_http_or_https url) then "https://" ++ url else url.

Definition normalizeUrl (input : string) : Completion ScanTarget.t :=
  let url := prefixed input in
  match newURL url with
  | Throw e => Throw e
  | Normal u =>
    Normal (ScanTarget.mk ("https://" ++ URL.host u ++ "/")
                          ("http://" ++ URL.host u ++ "/")
                          (URL.host u))
  end.

End Normalizer.

(** ** [toBoolHeader] *)

Definition toBoolHeader (h : option string) : bool :=
  match h with
  | None => false
  | Some v => (0 <? Z.of_nat (String.length v))%Z
  end.

(** ** [Headers] *)

Module Headers.
(** The header list of a response, in order, names as received. *)
Definition t : Type := list (string * string).

Fixpoint join (vs : list string) : string :=
  match vs with
  | [] => EmptyString
  | [v] => v
  | v :: rest => v ++ ", " ++ join rest
  end.

Definition named (name : string) (h : t) : list string :=
  map snd (filter (fun nv => String.eqb (toLowerCase (fst nv)) (toLowerCase name)) h).

(** [h.get(name)]: [null] when no header has that name (compared without
    case), otherwise the values of that name joined with a comma and a space. *)
Definition get (h : t) (name : string) : option string :=
  match named name h with
  | [] => None
  | vs => Some (join vs)
  end.
End Headers.

(** ** [fetch] *)

Inductive Redirect : Type := follow | manual.

Module Res.
(** What the handler reads of a fetch response. *)
Record t : Type := mk {
  status : Z;
  headers : Headers.t
}.

(** [res.ok]: the status is in the range 200 to 299. *)
Definition ok (r : t) : bool := ((200 <=? status r) && (status r <=? 299))%Z.
End Res.

(** ** The request body *)

#[warnings="-register-all"]
Inductive JsValue : Type :=
| JUndefined
| JNull
| JBool (b : bool)
| JNumber (isZero : bool)            (* all the handler could see of a number *)
| JString (s : string)
| JArray (items : list JsValue)
| JObject (members : list (string * JsValue)).

(** [!v] is false: the value is truthy.  Only strings are looked at closely,
    the handler rejects every other type on its [typeof] test. *)
Definition truthy (v : JsValue) : bool :=
  match v with
  | JUndefined | JNull => false
  | JBool b => b
  | JNumber isZero => negb isZero
  | JString s => negb (String.eqb s EmptyString)
  | JArray _ | JObject _ => true
  end.

Definition typeof_string (v : JsValue) : bool :=
  match v with
  | JString _ => true
  | _ => false
  end.

(** The string a value holds, once [typeof] has said it is one. *)
Definition asString (v : JsValue) : string :=
  match v with
  | JString s => s
  | _ => EmptyString
  end.

(** Members of a parsed JSON object: the last occurrence of a key wins. *)
Fixpoint member (k : string) (ms : list (string * JsValue)) : JsValue :=
  match ms with
  | [] => JUndefined
  | (k', v) :: rest =>
    match member k rest with
    | JUndefined => if String.eqb k' k then v else JUndefined
    | found => found
    end
  end.

(** The TypeError of reading a property of [null] or [undefined]. *)
Definition cannotRead (what : string) : Thrown :=
  ErrorObject ("Cannot read properties of " ++ what ++ " (reading 'url')").

(** [body.url] *)
Definition get_url (body : JsValue) : Completion JsValue :=
  match body with
  | JNull => Throw (cannotRead "null")
  | JUndefined => Throw (cannotRead "undefined")
  | JObject ms => Normal (member "url" ms)
  | _ => Normal JUndefined
  end.

Module NextRequest.
(** [req.json()]: the parsed body, or what parsing threw. *)
Record t : Type := mk { json : Completion JsValue }.
End NextRequest.

(** ** The response of the handler *)

Module Finding.
Record t : Type := mk {
  key : string;
  ok : bool;
  message : string;
  advice : option string     (* [None] is [undefined] *)
}.
End Finding.

Module Priority.
Record t : Type := mk {
  key : string;
  advice : option string     (* [f.advice as string]: the cast changes nothing *)
}.
End Priority.

Module SecurityHeaders.
Record t : Type := mk {
  hsts : option string;
  csp : option string;
  xFrameOptions : option string;
  xContentTypeOptions : option string;
  referrerPolicy : option string;
  permissionsPolicy : option string
}.
End SecurityHeaders.

Module ScanResponse.
Record t : Type := mk {
  host : string;
  httpsEnabled : bool;
  httpRedirectsToHttps : bool;
  headers : SecurityHeaders.t;
  score : Z;
  findings : list Finding.t;
  priorities : list Priority.t
}.
End ScanResponse.

Inductive Json : Type :=
| ErrorJson (error : string)           (* [{ error: ... }] *)
| PayloadJson (payload : ScanResponse.t).

Module Response.
Record t : Type := mk {
  status : Z;
  body : Json
}.
End Response.

(** ** Effects of the handler

    The handler runs its steps one after the other; each [fetch] it issues is
    recorded in a log, and a step may throw. *)

Record FetchCall : Type := mkCall {
  call_url : string;
  call_redirect : Redirect
}.

Definition Eff (A : Type) : Type :=
  list FetchCall -> Completion A * list FetchCall.

Definition ret {A : Type} (a : A) : Eff A :=
  fun log => (Normal a, log).

Definition bind {A B : Type} (m : Eff A) (k : A -> Eff B) : Eff B :=
  fun log =>
    match m log with
    | (Normal a, log') => k a log'
    | (Throw e, log') => (Throw e, log')
    end.

Definition lift {A : Type} (c : Completion A) : Eff A :=
  fun log => (c, log).

(** [try { m } catch (e) { h e }] *)
Definition try_catch {A : Type} (m : Eff A) (h : Thrown -> Eff A) : Eff A :=
  fun log =>
    match m log with
    | (Normal a, log') => (Normal a, log')
    | (Throw e, log') => h e log'
    end.

Notation "x <- m ;; k" := (bind m (fun x => k))
  (at level 61, m at next level, right associativity).
Notation "' pat <- m ;; k" := (bind m (fun x => match x with pat => k end))
  (at level 61, pat pattern, m at next level, right associativity).

(** ** Findings, score and priorities *)

Definition findings (httpsEnabled httpRedirectsToHttps : bool)
    (hsts csp xfo xcto refpol ppol : option string) : list Finding.t :=
  [ Finding.mk "httpsEnabled" httpsEnabled
      (if httpsEnabled then "HTTPS activo" else "HTTPS no responde correctamente")
      (if httpsEnabled then None
       else Some "Instala un certificado TLS válido y sirve la tienda por HTTPS.");
    Finding.mk "httpRedirectsToHttps" httpRedirectsToHttps
      (if httpRedirectsToHttps then "HTTP redirige a HTTPS" else "HTTP no redirige a HTTPS")
      (if httpRedirectsToHttps then None
       else Some "Configura redirección 301/308 de http:// a https://.");
    Finding.mk "hsts" (toBoolHeader hsts)
      (if toBoolHeader hsts then "HSTS presente" else "HSTS ausente")
      (if toBoolHeader hsts then None
       else Some "Añade Strict-Transport-Security: max-age=15552000; includeSubDomains; preload.");
    Finding.mk "csp" (toBoolHeader csp)
      (if toBoolHeader csp then "CSP presente" else "CSP ausente")
      (if toBoolHeader csp then None
       else Some "Empieza con: Content-Security-Policy: default-src 'self'; upgrade-insecure-requests;");
    Finding.mk "x-frame-options" (toBoolHeader xfo)
      (if toBoolHeader xfo then "X-Frame-Options presente" else "X-Frame-Options ausente")
      (if toBoolHeader xfo then None
       else Some "Usa X-Frame-Options: DENY (o SAMEORIGIN) para evitar clickjacking.");
    Finding.mk "x-content-type-options" (toBoolHeader xcto)
      (if toBoolHeader xcto then "X-Content-Type-Options presente"
       else "X-Content-Type-Options ausente")
      (if toBoolHeader xcto then None
       else Some "Usa X-Content-Type-Options: nosniff para bloquear MIME sniffing.");
    Finding.mk "referrer-policy" (toBoolHeader refpol)
      (if toBoolHeader refpol then "Referrer-Policy presente" else "Referrer-Policy ausente")
      (if toBoolHeader refpol then None
       else Some "Usa Referrer-Policy: strict-origin-when-cross-origin.");
    Finding.mk "permissions-policy" (toBoolHeader ppol)
      (if toBoolHeader ppol then "Permissions-Policy presente"
       else "Permissions-Policy ausente")
      (if toBoolHeader ppol then None
       else Some "Añade Permissions-Policy para limitar APIs (e.g. camera=(), geolocation=()).") ].

(** The predicate of the score's [filter]. *)
Definition okHeaderFinding (f : Finding.t) : bool :=
  Finding.ok f
  && negb (String.eqb (Finding.key f) "httpsEnabled")
  && negb (String.eqb (Finding.key f) "httpRedirectsToHttps").

(** The score before [Math.max(0, Math.min(100, score))]. *)
Definition rawScore (fs : list Finding.t) (httpsEnabled httpRedirectsToHttps : bool) : Z :=
  let score := (Z.of_nat (length (filter okHeaderFinding fs)) * 10)%Z in
  let score := if httpsEnabled then (score + 10)%Z else score in
  let score := if httpRedirectsToHttps then (score + 10)%Z else score in
  score.

Definition score (fs : list Finding.t) (httpsEnabled httpRedirectsToHttps : bool) : Z :=
  Z.max 0 (Z.min 100 (rawScore fs httpsEnabled httpRedirectsToHttps)).

(** Truthiness of [f.advice]: defined and not the empty string. *)
Definition adviceTruthy (a : option string) : bool :=
  match a with
  | None => false
  | Some s => negb (String.eqb s EmptyString)
  end.

Definition needsAdvice (f : Finding.t) : bool :=
  negb (Finding.ok f) && adviceTruthy (Finding.advice f).

Definition priorities (fs : list Finding.t) : list Priority.t :=
  map (fun f => Priority.mk (Finding.key f) (Finding.advice f))
      (firstn 3 (filter needsAdvice fs)).

(** ** The handler *)

Section Handler.

(** [new URL(s)]: the parsed URL, or the TypeError it throws. *)
Variable newURL : string -> Completion URL.t.

(** The network: what [fetch(url, { redirect })] resolves to, or its
    rejection (DNS, TLS, refused connection, time-out). *)
Variable network : string -> Redirect -> Completion Res.t.

Definition fetch (url : string) (redirect : Redirect) : Eff Res.t :=
  fun log => (network url redirect, log ++ [mkCall url redirect]).

(** [e instanceof Error ? e.message : "Error inesperado"] *)
Definition errorMessage (e : Thrown) : string :=
  match e with
  | ErrorObject m => m
  | OtherValue => "Error inesperado"
  end.

(** Step 1: the HTTPS probe; yields [httpsEnabled] and [httpsHeaders]. *)
Definition probeHttps (httpsUrl : string) : Eff (bool * option Headers.t) :=
  let httpsEnabled := false in
  let httpsHeaders := @None Headers.t in
  try_catch
    (res <- fetch httpsUrl follow ;;
     let httpsEnabled :=
       Res.ok res || ((200 <=? Res.status res)%Z && (Res.status res <? 400)%Z) in
     let httpsHeaders := Some (Res.headers res) in
     ret (httpsEnabled, httpsHeaders))
    (fun _ => ret (false, httpsHeaders)).

(** [v || (the empty string)] on the result of [Headers.get]. *)
Definition orEmpty (v : option string) : string :=
  match v with
  | None => EmptyString
  | Some s => s
  end.

(** Step 2: the HTTP probe, first hop only; yields [httpRedirectsToHttps]. *)
Definition probeHttp (httpUrl : string) : Eff bool :=
  try_catch
    (res <- fetch httpUrl manual ;;
     let loc := orEmpty (Headers.get (Res.headers res) "location") in
     ret (existsb (Z.eqb (Res.status res)) [301; 302; 307; 308]%Z
          && test true re_https loc))
    (fun _ => ret false).

(** Step 3: [get(name)] on the retained HTTPS headers. *)
Definition get (httpsHeaders : option Headers.t) (name : string) : option string :=
  match httpsHeaders with
  | Some h => Headers.get h name
  | None => None
  end.

Definition missingUrl : Response.t :=
  Response.mk 400 (ErrorJson "Falta 'url' en el body.").

Definition POST (req : NextRequest.t) : Eff Response.t :=
  try_catch
    (body <- lift (NextRequest.json req) ;;
     url <- lift (get_url body) ;;
     if negb (truthy url) || negb (typeof_string url) then ret missingUrl else
       target <- lift (normalizeUrl newURL (asString url)) ;;
       let httpsUrl := ScanTarget.httpsUrl target in
       let httpUrl := ScanTarget.httpUrl target in
       let host := ScanTarget.host target in
       '(httpsEnabled, httpsHeaders) <- probeHttps httpsUrl ;;
       httpRedirectsToHttps <- probeHttp httpUrl ;;
       let hsts := get httpsHeaders "strict-transport-security" in
       let csp := get httpsHeaders "content-security-policy" in
       let xfo := get httpsHeaders "x-frame-options" in
       let xcto := get httpsHeaders "x-content-type-options" in
       let refpol := get httpsHeaders "referrer-policy" in
       let ppol := get httpsHeaders "permissions-policy" in
       let findings :=
         findings httpsEnabled httpRedirectsToHttps hsts csp xfo xcto refpol ppol in
       let score := score findings httpsEnabled httpRedirectsToHttps in
       let priorities := priorities findings in
       let payload :=
         ScanResponse.mk host httpsEnabled httpRedirectsToHttps
           (SecurityHeaders.mk hsts csp xfo xcto refpol ppol)
           score findings priorities in
       ret (Response.mk 200 (PayloadJson payload)))
    (fun e => ret (Response.mk 400 (ErrorJson (errorMessage e)))).

(** One request, from an empty log: the response and the fetches issued. *)
Definition handle (req : NextRequest.t) : Completion Response.t * list FetchCall :=
  POST req [].

End Handler.

(** ** A small parser and two networks, to run the handler on examples *)

Module Sample.

Fixpoint span (stop : ascii -> bool) (s : string) : string * string :=
  match s with
  | EmptyString => (EmptyString, EmptyString)
  | String c r =>
    if stop c then (EmptyString, s)
    else let '(a, b) := span stop r in (String c a, b)
  end.

Definition endsAuthority (c : ascii) : bool :=
  Ascii.eqb c "/" || Ascii.eqb c "?" || Ascii.eqb c "#".

Definition endsPath (c : ascii) : bool :=
  Ascii.eqb c "?" || Ascii.eqb c "#".

(** Scheme, [://], a non-empty authority, then path and query.  Enough of
    [new URL] for hosts written in lower or upper case ASCII. *)
Definition newURL (s : string) : Completion URL.t :=
  match rmatch true re_http_or_https s with
  | [] => Throw (ErrorObject "Invalid URL")
  | rest :: _ =>
    let '(authority, tail) := span endsAuthority rest in
    let '(path, query) := span endsPath tail in
    match authority with
    | EmptyString => Throw (ErrorObject "Invalid URL")
    | _ =>
      Normal (URL.mk (toLowerCase authority)
                     (match path with EmptyString => "/" | _ => path end)
                     (fst (span (Ascii.eqb "#") query)))
    end
  end.

Definition request (url : string) : NextRequest.t :=
  NextRequest.mk (Normal (JObject [("url", JString url)])).

(** A host: what it answers over HTTPS and what it answers over HTTP. *)
Definition site (https http : Completion Res.t) (url : string) (r : Redirect)
  : Completion Res.t :=
  match r with
  | follow => https
  | manual => http
  end.

Definition rejected : Completion Res.t := Throw (ErrorObject "fetch failed").

Definition answers (status : Z) (hs : Headers.t) : Completion Res.t :=
  Normal (Res.mk status hs).

(** No host answers: every fetch is rejected. *)
Definition offline : string -> Redirect -> Completion Res.t :=
  site rejected rejected.

Definition allHeaders : Headers.t :=
  [ ("Strict-Transport-Security", "max-age=15552000");
    ("Content-Security-Policy", "default-src 'self'");
    ("X-Frame-Options", "DENY");
    ("X-Content-Type-Options", "nosniff");
    ("Referrer-Policy", "strict-origin-when-cross-origin");
    ("Permissions-Policy", "camera=()") ].

Definition exampleTarget : ScanTarget.t :=
  ScanTarget.mk "https://example.com/" "http://example.com/" "example.com".

End Sample.

(** ** The page (app/page.tsx) *)

Module Page.

(** The four [useState] cells of [Home]. *)
Record State : Type := mkState {
  url : string;
  loading : bool;
  result : option Json;        (* [any]; [None] is [null] *)
  error : option string        (* [string | null] *)
}.

Definition initial : State := mkState EmptyString false None None.

Definition setUrl (v : string) (s : State) : State :=
  mkState v (loading s) (result s) (error s).
Definition setLoading (v : bool) (s : State) : State :=
  mkState (url s) v (result s) (error s).
Definition setResult (v : option Json) (s : State) : State :=
  mkState (url s) (loading s) v (error s).
Definition setError (v : option string) (s : State) : State :=
  mkState (url s) (loading s) (result s) v.

(** What [await res.json()] gives: the parsed body, or the SyntaxError. *)
Inductive Body : Type :=
| Unparsable (message : string)
| Parsed (data : Json).

(** What [await fetch("/api/scan", ...)] gives: a rejection (a TypeError with
    its message) or a response, of which the page reads the status and the
    body. *)
Inductive Exchange : Type :=
| Unreachable (message : string)
| Answered (status : Z) (body : Body).

(** [res.ok] *)
Definition statusOk (status : Z) : bool :=
  ((200 <=? status) && (status <=? 299))%Z.

(** [data.error] *)
Definition dataError (data : Json) : option string :=
  match data with
  | ErrorJson e => Some e
  | PayloadJson _ => None
  end.

(** [data.error || "Error al escanear"] *)
Definition errorOrDefault (e : option string) : string :=
  match e with
  | None => "Error al escanear"
  | Some m => if String.eqb m EmptyString then "Error al escanear" else m
  end.

(** [e.message] *)
Definition messageOf (e : Thrown) : option string :=
  match e with
  | ErrorObject m => Some m
  | OtherValue => None
  end.

(** The body of the [try] of [handleScan]. *)
Definition tryBlock (x : Exchange) (s : State) : Completion State :=
  match x with
  | Unreachable m => Throw (ErrorObject m)
  | Answered status body =>
    match body with
    | Unparsable m => Throw (ErrorObject m)
    | Parsed data =>
      if negb (statusOk status)
      then Throw (ErrorObject (errorOrDefault (dataError data)))
      else Normal (setResult (Some data) s)
    end
  end.

(** The state while the request is under way. *)
Definition pending (s : State) : State :=
  setResult None (setError None (setLoading true s)).

(** [handleScan], given what the exchange with the server turns out to be. *)
Definition handleScan (x : Exchange) (s : State) : State :=
  let s := pending s in
  let s :=
    match tryBlock x s with
    | Normal s' => s'
    | Throw e => setError (messageOf e) s
    end in
  setLoading false s.

(** The request [handleScan] sends: the body is [JSON.stringify({ url })]. *)
Definition requestOf (s : State) : NextRequest.t :=
  NextRequest.mk (Normal (JObject [("url", JString (url s))])).

(** What [Home] returns, as far as it depends on the state. *)
Record Item : Type := mkItem {
  itemKey : string;
  green : bool;            (* text-green-600, otherwise text-red-600 *)
  itemText : string
}.

Record Card : Type := mkCard {
  heading : string;                               (* after "Resultado: " *)
  scoreShown : Z;                                 (* before "/100" *)
  items : list Item;
  priorityList : option (list Priority.t)         (* the "Prioridades:" block *)
}.

Record View : Type := mkView {
  inputValue : string;
  buttonDisabled : bool;
  buttonLabel : string;
  errorLine : option string;
  card : option Card
}.

Definition renderItem (f : Finding.t) : Item :=
  mkItem (Finding.key f) (Finding.ok f)
         ((if Finding.ok f then "✅" else "❌") ++ " " ++ Finding.message f).

(** [result && (...)]: reading [findings] of a body that has none throws. *)
Definition renderCard (data : Json) : Completion Card :=
  match data with
  | ErrorJson _ =>
    Throw (ErrorObject "Cannot read properties of undefined (reading 'map')")
  | PayloadJson p =>
    Normal (mkCard (ScanResponse.host p) (ScanResponse.score p)
                   (map renderItem (ScanResponse.findings p))
                   (if (0 <? Z.of_nat (length (ScanResponse.priorities p)))%Z
                    then Some (ScanResponse.priorities p) else None))
  end.

Definition render (s : State) : Completion View :=
  let errorLine :=
    match error s with
    | Some m => if String.eqb m EmptyString then None else Some m
    | None => None
    end in
  let top := mkView (url s) (loading s)
                    (if loading s then "Escaneando..." else "Escanear") errorLine in
  match result s with
  | None => Normal (top None)
  | Some data =>
    match renderCard data with
    | Normal c => Normal (top (Some c))
    | Throw e => Throw e
    end
  end.

(** The exchange in which the server's response [res] reaches the page. *)
Definition answerOf (res : Response.t) : Exchange :=
  Answered (Response.status res) (Parsed (Response.body res)).

End Page.

(** ** Vocabulary of the statements *)

(** [s] starts with one of U+0009 .. U+000D, U+0020. *)
Definition startsWithSpace1 (s : string) : bool :=
  match s with
  | EmptyString => false
  | String c _ => isSpace1 c
  end.

(** [s] starts with [p], letter case apart. *)
Definition startsWithCI (p s : string) : Prop :=
  exists a b, s = (a ++ b)%string /\ toUpperCase a = toUpperCase p.

(** The remainder of [s] after the prefix [p], letter case apart. *)
Fixpoint stripCI (p s : string) : option string :=
  match p with
  | EmptyString => Some s
  | String pc pr =>
    match s with
    | EmptyString => None
    | String c r => if Ascii.eqb (upcase c) (upcase pc) then stripCI pr r else None
    end
  end.

(** The signals read off the outcome of the HTTPS fetch. *)
Definition httpsSignal (r : Completion Res.t) : bool * option Headers.t :=
  match r with
  | Normal res =>
    (Res.ok res || ((200 <=? Res.status res)%Z && (Res.status res <? 400)%Z),
     Some (Res.headers res))
  | Throw _ => (false, None)
  end.

(** The signal read off the outcome of the HTTP fetch. *)
Definition httpSignal (r : Completion Res.t) : bool :=
  match r with
  | Normal res =>
    existsb (Z.eqb (Res.status res)) [301; 302; 307; 308]%Z
    && test true re_https (orEmpty (Headers.get (Res.headers res) "location"))
  | Throw _ => false
  end.

(** The payload built from the target's host and the three signals. *)
Definition scanResult (host : string) (httpsEnabled : bool)
    (httpsHeaders : option Headers.t) (httpRedirectsToHttps : bool) : ScanResponse.t :=
  let hsts := get httpsHeaders "strict-transport-security" in
  let csp := get httpsHeaders "content-security-policy" in
  let xfo := get httpsHeaders "x-frame-options" in
  let xcto := get httpsHeaders "x-content-type-options" in
  let refpol := get httpsHeaders "referrer-policy" in
  let ppol := get httpsHeaders "permissions-policy" in
  let fs := findings httpsEnabled httpRedirectsToHttps hsts csp xfo xcto refpol ppol in
  ScanResponse.mk host httpsEnabled httpRedirectsToHttps
    (SecurityHeaders.mk hsts csp xfo xcto refpol ppol)
    (score fs httpsEnabled httpRedirectsToHttps) fs (priorities fs).

(** The request carries a non-empty string [s] as its [url]. *)
Definition asksFor (req : NextRequest.t) (s : string) : Prop :=
  exists body, NextRequest.json req = Normal body
               /\ get_url body = Normal (JString s)
               /\ s <> EmptyString.

(** The run ends in a 200 response with payload [p]. *)
Definition completes (newURL : string -> Completion URL.t)
    (network : string -> Redirect -> Completion Res.t)
    (req : NextRequest.t) (p : ScanResponse.t) : Prop :=
  exists log,
    handle newURL network req = (Normal (Response.mk 200 (PayloadJson p)), log).

Definition findingKeys : list string :=
  [ "httpsEnabled"; "httpRedirectsToHttps"; "hsts"; "csp"; "x-frame-options";
    "x-content-type-options"; "referrer-policy"; "permissions-policy" ].

Definition failing (f : Finding.t) : bool := negb (Finding.ok f).

Definition headerKeys : list string :=
  [ "hsts"; "csp"; "x-frame-options"; "x-content-type-options";
    "referrer-policy"; "permissions-policy" ].

Definition noHeaders : SecurityHeaders.t :=
  SecurityHeaders.mk None None None None None None.

(** The request carries the empty string as its [url]. *)
Definition asksForNothing (req : NextRequest.t) : Prop :=
  exists body, NextRequest.json req = Normal body
               /\ get_url body = Normal (JString EmptyString).

Definition endsWith (suffix s : string) : Prop :=
  exists front, s = (front ++ suffix)%string.

(** The number of findings that are not ok. *)
Definition failures (fs : list Finding.t) : nat := length (filter failing fs).

(** Which of the six header values count as present. *)
Definition presence (hs : SecurityHeaders.t) : list bool :=
  [ toBoolHeader (SecurityHeaders.hsts hs);
    toBoolHeader (SecurityHeaders.csp hs);
    toBoolHeader (SecurityHeaders.xFrameOptions hs);
    toBoolHeader (SecurityHeaders.xContentTypeOptions hs);
    toBoolHeader (SecurityHeaders.referrerPolicy hs);
    toBoolHeader (SecurityHeaders.permissionsPolicy hs) ].

(** Every character of [w] is one of U+0009 .. U+000D, U+0020. *)
Fixpoint allSpace1 (w : string) : bool :=
  match w with
  | EmptyString => true
  | String c r => isSpace1 c && allSpace1 r
  end.

(** * Properties *)

(** ** Trimming *)

Lemma strip_bounded (back : bool) (n : nat) (s : string) :
  (String.length s <= n)%nat -> startsWithSpace1 (strip back s) = false.
Proof.
  revert s; induction n as [|n IH]; intros s Hl.
  - destruct s; [reflexivity | simpl in Hl; lia].
  - destruct s as [|c1 r1]; [reflexivity|].
    cbn [strip]. simpl in Hl.
    destruct (isSpace1 c1) eqn:E1; [apply IH; lia|].
    destruct r1 as [|c2 r2]; [exact E1|]. simpl in Hl.
    destruct (if back then isSpace2 c2 c1 else isSpace2 c1 c2); [apply IH; lia|].
    destruct r2 as [|c3 r3]; [exact E1|]. simpl in Hl.
    destruct (if back then isSpace3 c3 c2 c1 else isSpace3 c1 c2 c3);
      [apply IH; lia | exact E1].
Qed.

(** What [trimStart] returns does not start with a space, tab or line break. *)
Lemma trimStart_head (s : string) : startsWithSpace1 (trimStart s) = false.
Proof. apply strip_bounded with (n := String.length s). lia. Qed.

Lemma sapp_assoc (a b c : string) : ((a ++ b) ++ c = a ++ (b ++ c))%string.
Proof. induction a as [|x a IH]; simpl; [reflexivity | now rewrite IH]. Qed.

Lemma sapp_empty (a : string) : (a ++ EmptyString)%string = a.
Proof. induction a as [|x a IH]; simpl; [reflexivity | now rewrite IH]. Qed.

Lemma srev_onto_app (s acc : string) :
  srev_onto s acc = (srev_onto s EmptyString ++ acc)%string.
Proof.
  revert acc; induction s as [|c r IH]; intros acc; simpl; [reflexivity|].
  rewrite (IH (String c acc)), (IH (String c EmptyString)), sapp_assoc.
  reflexivity.
Qed.

Lemma srev_app (a b : string) : srev (a ++ b) = (srev b ++ srev a)%string.
Proof.
  unfold srev. induction a as [|c r IH]; simpl.
  - now rewrite sapp_empty.
  - rewrite srev_onto_app, IH, (srev_onto_app r (String c EmptyString)), sapp_assoc.
    reflexivity.
Qed.

Lemma srev_involutive (s : string) : srev (srev s) = s.
Proof.
  induction s as [|c r IH]; [reflexivity|].
  change (srev (String c r)) with (srev_onto r (String c EmptyString)).
  rewrite srev_onto_app. fold (srev r). rewrite srev_app, IH. reflexivity.
Qed.

(** What [trim] returns does not end with a space, tab or line break. *)
Lemma trim_last (s : string) : startsWithSpace1 (srev (trim s)) = false.
Proof.
  unfold trim, trimEnd. rewrite srev_involutive.
  apply strip_bounded with (n := String.length (srev (trimStart s))). lia.
Qed.

Example trim_examples :
  trim "  example.com/path  " = "example.com/path"
  /\ trim (String (ascii_of_N 9) (String (ascii_of_N 194) (String (ascii_of_N 160) "a b"))
           ++ String (ascii_of_N 226) (String (ascii_of_N 128) (String (ascii_of_N 168)
                (String (ascii_of_N 10) EmptyString))))%string
     = "a b"
  /\ trim "   " = EmptyString.
Proof. repeat split; vm_compute; reflexivity. Qed.

Example scheme_tests :
  test true re_http_or_https "HtTpS://x" = true
  /\ test true re_http_or_https "http://" = true
  /\ test true re_http_or_https "http:/x" = false
  /\ test true re_http_or_https "ftp://x" = false
  /\ test true re_https "http://x" = false
  /\ test true re_https "Https://x" = true.
Proof. repeat split; vm_compute; reflexivity. Qed.

(** ** Prefixes without case *)

Lemma stripCI_spec (p s b : string) :
  stripCI p s = Some b <-> exists a, s = (a ++ b)%string /\ toUpperCase a = toUpperCase p.
Proof.
  revert s; induction p as [|pc pr IH]; intros s; simpl.
  - split.
    + intros [= ->]. exists EmptyString. split; reflexivity.
    + intros [a [-> Ha]]. destruct a; [reflexivity | discriminate].
  - destruct s as [|c r].
    + split; [discriminate|].
      intros [a [Hs Ha]]. destruct a; simpl in *; discriminate.
    + destruct (Ascii.eqb (upcase c) (upcase pc)) eqn:E.
      * apply Ascii.eqb_eq in E. rewrite IH. split.
        -- intros [a [-> Ha]]. exists (String c a). simpl.
           split; [reflexivity|]. unfold toUpperCase in *. simpl. now rewrite E, Ha.
        -- intros [a [Hs Ha]]. destruct a as [|c' a']; [discriminate|].
           simpl in Hs, Ha. injection Hs as -> ->. injection Ha as _ Ha.
           now exists a'.
      * apply Ascii.eqb_neq in E. split; [discriminate|].
        intros [a [Hs Ha]]. destruct a as [|c' a']; [discriminate|].
        simpl in Hs, Ha. injection Hs as -> ->. injection Ha as Hc _.
        contradiction.
Qed.

Lemma startsWithCI_stripCI (p s : string) :
  startsWithCI p s <-> stripCI p s <> None.
Proof.
  unfold startsWithCI. split.
  - intros [a [b H]]. assert (E : stripCI p s = Some b) by (apply stripCI_spec; eauto).
    congruence.
  - destruct (stripCI p s) as [b|] eqn:E; [|congruence].
    intros _. apply stripCI_spec in E. destruct E as [a H]. eauto.
Qed.

Lemma stripCI_app (p q s : string) :
  stripCI (p ++ q)%string s =
  match stripCI p s with
  | Some r => stripCI q r
  | None => None
  end.
Proof.
  revert s; induction p as [|pc pr IH]; intros s; simpl; [reflexivity|].
  destruct s as [|c r]; [reflexivity|].
  destruct (Ascii.eqb (upcase c) (upcase pc)); [apply IH | reflexivity].
Qed.

(** A literal pattern under the [i] flag matches in at most one way. *)
Lemma rmatch_RLit (p s : string) :
  rmatch true (RLit p) s =
  match stripCI p s with
  | Some b => [b]
  | None => []
  end.
Proof.
  revert s; induction p as [|pc pr IH]; intros s; simpl; [reflexivity|].
  destruct s as [|c r]; [reflexivity|].
  destruct (Ascii.eqb (upcase c) (upcase pc)); simpl; [|reflexivity].
  rewrite IH. now rewrite app_nil_r.
Qed.

Lemma test_re_https (s : string) :
  test true re_https s = true <-> startsWithCI "https://" s.
Proof.
  rewrite startsWithCI_stripCI. unfold test, re_https. rewrite rmatch_RLit.
  destruct (stripCI "https://" s); split; congruence.
Qed.

Lemma test_re_http_or_https (s : string) :
  test true re_http_or_https s = true
  <-> startsWithCI "http://" s \/ startsWithCI "https://" s.
Proof.
  rewrite !startsWithCI_stripCI.
  change "http://" with ("http" ++ "://")%string.
  change "https://" with ("http" ++ "s://")%string.
  rewrite !stripCI_app.
  unfold test, re_http_or_https.
  change (rmatch true (RSeq (RLit "http") (RSeq (ROpt (RChar "s")) (RLit "://"))) s)
    with (flat_map (fun r => flat_map (rmatch true (RLit "://"))
                                      (rmatch true (RChar "s") r ++ [r]))
                   (rmatch true (RLit "http") s)).
  rewrite rmatch_RLit.
  destruct (stripCI "http" s) as [r|]; cbn [flat_map].
  - rewrite app_nil_r, flat_map_app. cbn [flat_map]. rewrite app_nil_r.
    change (flat_map (rmatch true (RLit "://")) (rmatch true (RChar "s") r))
      with (rmatch true (RLit "s://") r).
    rewrite !rmatch_RLit.
    destruct (stripCI "s://" r), (stripCI "://" r); simpl;
      split; intros H; try congruence; try (left; congruence); try (right; congruence);
      destruct H; congruence.
  - split; [discriminate | intros [H|H]; congruence].
Qed.

(** ** What one run of the handler does *)

Section Runs.

Variable newURL : string -> Completion URL.t.
Variable network : string -> Redirect -> Completion Res.t.

Lemma probeHttps_run (url : string) (log : list FetchCall) :
  probeHttps network url log =
  (Normal (httpsSignal (network url follow)), log ++ [mkCall url follow]).
Proof.
  unfold probeHttps, try_catch, bind, fetch, ret, httpsSignal.
  destruct (network url follow); reflexivity.
Qed.

Lemma probeHttp_run (url : string) (log : list FetchCall) :
  probeHttp network url log =
  (Normal (httpSignal (network url manual)), log ++ [mkCall url manual]).
Proof.
  unfold probeHttp, try_catch, bind, fetch, ret, httpSignal.
  destruct (network url manual); reflexivity.
Qed.

Lemma truthy_string (s : string) :
  truthy (JString s) = true <-> s <> EmptyString.
Proof.
  simpl. destruct (String.eqb_spec s EmptyString); simpl; split; congruence.
Qed.

(** A request for [s] that normalises to [t]: both probes run, in order, and
    the response is the payload of their signals. *)
Lemma handle_scan (req : NextRequest.t) (s : string) (t : ScanTarget.t) :
  asksFor req s ->
  normalizeUrl newURL s = Normal t ->
  handle newURL network req =
  (Normal (Response.mk 200 (PayloadJson
     (scanResult (ScanTarget.host t)
        (fst (httpsSignal (network (ScanTarget.httpsUrl t) follow)))
        (snd (httpsSignal (network (ScanTarget.httpsUrl t) follow)))
        (httpSignal (network (ScanTarget.httpUrl t) manual))))),
   [mkCall (ScanTarget.httpsUrl t) follow; mkCall (ScanTarget.httpUrl t) manual]).
Proof.
  intros [body [Hj [Hu Hs]]] Hn.
  apply truthy_string in Hs.
  unfold handle, POST, try_catch, bind at 1 2, lift.
  rewrite Hj, Hu, Hs. cbn [negb orb typeof_string asString].
  unfold bind at 1, lift. rewrite Hn.
  unfold bind at 1. rewrite probeHttps_run.
  destruct (httpsSignal _) as [he hh]. cbn [fst snd].
  unfold bind. rewrite probeHttp_run. reflexivity.
Qed.

(** A request for [s] that does not normalise: a 400 and no fetch. *)
Lemma handle_invalid (req : NextRequest.t) (s : string) (e : Thrown) :
  asksFor req s ->
  normalizeUrl newURL s = Throw e ->
  handle newURL network req =
  (Normal (Response.mk 400 (ErrorJson (errorMessage e))), []).
Proof.
  intros [body [Hj [Hu Hs]]] Hn.
  apply truthy_string in Hs.
  unfold handle, POST, try_catch, bind at 1 2, lift.
  rewrite Hj, Hu, Hs. cbn [negb orb typeof_string asString].
  unfold bind, lift. rewrite Hn. reflexivity.
Qed.

(** Every run ends normally; it either answers 400 with a message and has
    fetched nothing, or answers 200 with the payload of a normalised target
    and has fetched twice. *)
Lemma handle_cases (req : NextRequest.t) :
  (exists msg,
     handle newURL network req = (Normal (Response.mk 400 (ErrorJson msg)), []))
  \/ (exists s t, asksFor req s /\ normalizeUrl newURL s = Normal t).
Proof.
  destruct (NextRequest.json req) as [body|e] eqn:Hj.
  2:{ left. exists (errorMessage e).
      unfold handle, POST, try_catch, bind, lift. now rewrite Hj. }
  destruct (get_url body) as [url|e] eqn:Hu.
  2:{ left. exists (errorMessage e).
      unfold handle, POST, try_catch, bind, lift. now rewrite Hj, Hu. }
  destruct (negb (truthy url) || negb (typeof_string url)) eqn:G.
  { left. exists "Falta 'url' en el body.".
    unfold handle, POST, try_catch, bind, lift. now rewrite Hj, Hu, G. }
  apply orb_false_iff in G. destruct G as [G1 G2].
  apply negb_false_iff in G1, G2.
  destruct url; try discriminate.
  assert (A : asksFor req s).
  { exists body. repeat split; trivial. now apply truthy_string. }
  destruct (normalizeUrl newURL s) as [t|e] eqn:Hn.
  - right. eauto.
  - left. exists (errorMessage e). now apply handle_invalid with (s := s).
Qed.

Lemma completes_inv (req : NextRequest.t) (p : ScanResponse.t) :
  completes newURL network req p ->
  exists s t,
    asksFor req s /\ normalizeUrl newURL s = Normal t
    /\ p = scanResult (ScanTarget.host t)
             (fst (httpsSignal (network (ScanTarget.httpsUrl t) follow)))
             (snd (httpsSignal (network (ScanTarget.httpsUrl t) follow)))
             (httpSignal (network (ScanTarget.httpUrl t) manual)).
Proof.
  intros [log H]. destruct (handle_cases req) as [[msg E] | [s [t [A Hn]]]].
  - rewrite E in H. discriminate.
  - exists s, t. repeat split; trivial.
    rewrite (handle_scan req s t A Hn) in H. now injection H as ->.
Qed.

End Runs.

Lemma length_filter_cons {A : Type} (p : A -> bool) (x : A) (l : list A) :
  length (filter p (x :: l)) = ((if p x then 1 else 0) + length (filter p l))%nat.
Proof. simpl. now destruct (p x). Qed.

(** ** Findings, score and priorities of any signals *)

Section Signals.

Variables httpsEnabled httpRedirectsToHttps : bool.
Variables hsts csp xfo xcto refpol ppol : option string.

Let fs : list Finding.t :=
  findings httpsEnabled httpRedirectsToHttps hsts csp xfo xcto refpol ppol.

Lemma findings_keys : map Finding.key fs = findingKeys.
Proof. reflexivity. Qed.

Lemma findings_oks :
  map Finding.ok fs =
  [ httpsEnabled; httpRedirectsToHttps; toBoolHeader hsts; toBoolHeader csp;
    toBoolHeader xfo; toBoolHeader xcto; toBoolHeader refpol; toBoolHeader ppol ].
Proof. reflexivity. Qed.

Lemma findings_length : length fs = 8%nat.
Proof. reflexivity. Qed.

Lemma findings_advice :
  Forall (fun f => Finding.advice f <> None <-> Finding.ok f = false) fs.
Proof.
  unfold fs, findings.
  repeat (apply Forall_cons || apply Forall_nil); cbn [Finding.advice Finding.ok];
    match goal with |- (if ?b then _ else _) <> _ <-> _ => destruct b end;
    split; congruence.
Qed.

Lemma findings_needsAdvice :
  Forall (fun f => needsAdvice f = failing f) fs.
Proof.
  unfold fs, findings.
  repeat (apply Forall_cons || apply Forall_nil);
    unfold needsAdvice, failing; cbn [Finding.advice Finding.ok];
    match goal with |- negb ?b && _ = _ => destruct b end; reflexivity.
Qed.

(** Only the six header findings pass the filter of the score. *)
Lemma score_filter :
  length (filter okHeaderFinding fs) = length (filter Finding.ok (skipn 2 fs)).
Proof.
  unfold fs, findings. cbn [skipn].
  rewrite !length_filter_cons. cbn [filter length].
  unfold okHeaderFinding. cbn [Finding.ok Finding.key].
  cbn [String.eqb Ascii.eqb Bool.eqb negb andb].
  rewrite !andb_false_r, !andb_true_r. reflexivity.
Qed.

Lemma rawScore_counts :
  rawScore fs httpsEnabled httpRedirectsToHttps
  = (10 * Z.of_nat (length (filter Finding.ok fs)))%Z.
Proof.
  unfold rawScore. rewrite score_filter.
  unfold fs, findings. cbn [skipn].
  rewrite !length_filter_cons. cbn [filter length Finding.ok].
  destruct httpsEnabled, httpRedirectsToHttps; lia.
Qed.

Lemma ok_count_le : (length (filter Finding.ok fs) <= 8)%nat.
Proof.
  rewrite <- findings_length. apply filter_length_le.
Qed.

End Signals.

Lemma toBoolHeader_true (h : option string) :
  toBoolHeader h = true <-> exists v, h = Some v /\ v <> EmptyString.
Proof.
  destruct h as [v|]; simpl.
  - destruct v as [|c r]; simpl.
    + split; [discriminate | intros [v [[= <-] H]]; congruence].
    + split; [intros _; eexists; split; [reflexivity | discriminate] | intros _; apply Z.ltb_lt; lia].
  - split; [discriminate | intros [v [H _]]; discriminate].
Qed.

Lemma filter_all {A : Type} (p : A -> bool) (l : list A) :
  (forall x, In x l -> p x = true) -> filter p l = l.
Proof.
  induction l as [|x l IH]; intros H; simpl; [reflexivity|].
  rewrite (H x (or_introl eq_refl)). f_equal. apply IH. intros y Hy. apply H. now right.
Qed.

Lemma firstn_In {A : Type} (n : nat) (l : list A) (x : A) :
  In x (firstn n l) -> In x l.
Proof.
  revert l; induction n as [|n IH]; intros [|y l]; simpl; try tauto.
  intros [H|H]; [now left | right; now apply IH].
Qed.

(** ** The score *)

(** C1.  In every completed scan there are 8 findings and the score is 10 times
    the number of findings that are ok: 10 for each ok header finding (the last
    six), 10 for httpsEnabled and 10 for httpRedirectsToHttps.  It is a multiple
    of 10 between 0 and 100, and clamping the sum to [0,100] leaves it as it is. *)
Theorem score_counts_ok_findings
    (newURL : string -> Completion URL.t)
    (network : string -> Redirect -> Completion Res.t)
    (req : NextRequest.t) (p : ScanResponse.t) :
  completes newURL network req p ->
  let fs := ScanResponse.findings p in
  let he := ScanResponse.httpsEnabled p in
  let hr := ScanResponse.httpRedirectsToHttps p in
  length fs = 8%nat
  /\ ScanResponse.score p = score fs he hr
  /\ ScanResponse.score p = (10 * Z.of_nat (length (filter Finding.ok fs)))%Z
  /\ ScanResponse.score p =
     (10 * Z.of_nat (length (filter Finding.ok (skipn 2 fs)))
      + (if he then 10 else 0) + (if hr then 10 else 0))%Z
  /\ (exists k, ScanResponse.score p = 10 * k)%Z
  /\ (0 <= ScanResponse.score p <= 100)%Z
  /\ Z.max 0 (Z.min 100 (rawScore fs he hr)) = rawScore fs he hr.
Proof.
  intros C. destruct (completes_inv _ _ _ _ C) as [s [t [_ [_ ->]]]].
  destruct (httpsSignal _) as [he hh]. cbn [fst snd].
  set (hr := httpSignal _).
  cbv zeta. unfold scanResult.
  cbn [ScanResponse.findings ScanResponse.httpsEnabled
       ScanResponse.httpRedirectsToHttps ScanResponse.score].
  set (h1 := get hh _). set (h2 := get hh _). set (h3 := get hh _).
  set (h4 := get hh _). set (h5 := get hh _). set (h6 := get hh _).
  pose proof (rawScore_counts he hr h1 h2 h3 h4 h5 h6) as R.
  pose proof (ok_count_le he hr h1 h2 h3 h4 h5 h6) as L.
  pose proof (score_filter he hr h1 h2 h3 h4 h5 h6) as F.
  set (fs := findings he hr h1 h2 h3 h4 h5 h6) in *.
  assert (Raw : rawScore fs he hr =
                (10 * Z.of_nat (length (filter Finding.ok (skipn 2 fs)))
                 + (if he then 10 else 0) + (if hr then 10 else 0))%Z).
  { unfold rawScore. rewrite F. destruct he, hr; lia. }
  assert (S : score fs he hr = rawScore fs he hr) by (unfold score; lia).
  refine (conj _ (conj _ (conj _ (conj _ (conj _ (conj _ _)))))).
  - reflexivity.
  - reflexivity.
  - rewrite S. exact R.
  - rewrite S. exact Raw.
  - exists (Z.of_nat (length (filter Finding.ok fs))). rewrite S. exact R.
  - rewrite S, R. lia.
  - fold (score fs he hr). exact S.
Qed.

(** Eight findings of 10 points each: the score never exceeds 80. *)
Lemma score_at_most_80 (he hr : bool) (h1 h2 h3 h4 h5 h6 : option string) :
  (score (findings he hr h1 h2 h3 h4 h5 h6) he hr <= 80)%Z.
Proof.
  pose proof (rawScore_counts he hr h1 h2 h3 h4 h5 h6) as R.
  pose proof (ok_count_le he hr h1 h2 h3 h4 h5 h6) as L.
  unfold score. lia.
Qed.

(** ** The findings *)

(** C3.  Every scan result has the 8 findings in the fixed order of keys; the
    first two carry the probe booleans, each of the other six is ok exactly when
    its extracted header value is neither null nor the empty string, the values
    being those the response reports under [headers]. *)
Theorem findings_fixed_order_and_ok
    (newURL : string -> Completion URL.t)
    (network : string -> Redirect -> Completion Res.t)
    (req : NextRequest.t) (p : ScanResponse.t) :
  completes newURL network req p ->
  let fs := ScanResponse.findings p in
  let hs := ScanResponse.headers p in
  map Finding.key fs =
    [ "httpsEnabled"; "httpRedirectsToHttps"; "hsts"; "csp"; "x-frame-options";
      "x-content-type-options"; "referrer-policy"; "permissions-policy" ]
  /\ map Finding.ok fs =
    [ ScanResponse.httpsEnabled p; ScanResponse.httpRedirectsToHttps p;
      toBoolHeader (SecurityHeaders.hsts hs);
      toBoolHeader (SecurityHeaders.csp hs);
      toBoolHeader (SecurityHeaders.xFrameOptions hs);
      toBoolHeader (SecurityHeaders.xContentTypeOptions hs);
      toBoolHeader (SecurityHeaders.referrerPolicy hs);
      toBoolHeader (SecurityHeaders.permissionsPolicy hs) ]
  /\ (exists httpsHeaders,
        hs = SecurityHeaders.mk
               (get httpsHeaders "strict-transport-security")
               (get httpsHeaders "content-security-policy")
               (get httpsHeaders "x-frame-options")
               (get httpsHeaders "x-content-type-options")
               (get httpsHeaders "referrer-policy")
               (get httpsHeaders "permissions-policy"))
  /\ (forall h, toBoolHeader h = true <-> exists v, h = Some v /\ v <> EmptyString)
  /\ toBoolHeader (Some EmptyString) = false
  /\ toBoolHeader None = false.
Proof.
  intros C. destruct (completes_inv _ _ _ _ C) as [s [t [_ [_ ->]]]].
  destruct (httpsSignal _) as [he hh]. cbn [fst snd].
  refine (conj _ (conj _ (conj _ (conj _ (conj _ _))))); try reflexivity.
  - now exists hh.
  - apply toBoolHeader_true.
Qed.

(** C7.  In every scan result a finding has its advice defined if and only if
    it is not ok. *)
Theorem advice_iff_not_ok
    (newURL : string -> Completion URL.t)
    (network : string -> Redirect -> Completion Res.t)
    (req : NextRequest.t) (p : ScanResponse.t) :
  completes newURL network req p ->
  forall f, In f (ScanResponse.findings p) ->
    (Finding.advice f <> None <-> Finding.ok f = false)
    /\ (Finding.ok f = true -> Finding.advice f = None).
Proof.
  intros C. destruct (completes_inv _ _ _ _ C) as [s [t [_ [_ ->]]]].
  destruct (httpsSignal _) as [he hh]. cbn [fst snd].
  unfold scanResult. cbn [ScanResponse.findings].
  intros f Hf.
  pose proof (findings_advice he (httpSignal (network (ScanTarget.httpUrl t) manual))
                (get hh "strict-transport-security") (get hh "content-security-policy")
                (get hh "x-frame-options") (get hh "x-content-type-options")
                (get hh "referrer-policy") (get hh "permissions-policy")) as A.
  rewrite Forall_forall in A. specialize (A f Hf). split; [exact A|].
  intros Hok. destruct (Finding.advice f) as [a|]; [|reflexivity].
  assert (Finding.ok f = false) by (apply A; discriminate). congruence.
Qed.

(** ** The priorities *)

(** C8.  In every scan result the priorities are the first three failing
    findings, in the order of the findings: at most 3, each with the key and the
    advice of a finding that is not ok; when all 8 findings fail they are
    httpsEnabled, httpRedirectsToHttps, hsts. *)
Theorem priorities_first_three_failures
    (newURL : string -> Completion URL.t)
    (network : string -> Redirect -> Completion Res.t)
    (req : NextRequest.t) (p : ScanResponse.t) :
  completes newURL network req p ->
  let fs := ScanResponse.findings p in
  let ps := ScanResponse.priorities p in
  (length ps <= 3)%nat
  /\ ps = priorities fs
  /\ ps = map (fun f => Priority.mk (Finding.key f) (Finding.advice f))
              (firstn 3 (filter failing fs))
  /\ map Priority.key ps = firstn 3 (map Finding.key (filter failing fs))
  /\ (forall q, In q ps ->
        exists f a, In f fs /\ Finding.ok f = false
                    /\ Finding.key f = Priority.key q
                    /\ Finding.advice f = Some a /\ Priority.advice q = Some a)
  /\ ((forall f, In f fs -> Finding.ok f = false) ->
        map Priority.key ps = ["httpsEnabled"; "httpRedirectsToHttps"; "hsts"]).
Proof.
  intros C. destruct (completes_inv _ _ _ _ C) as [s [t [_ [_ ->]]]].
  destruct (httpsSignal _) as [he hh]. cbn [fst snd].
  set (hr := httpSignal _).
  cbv zeta. unfold scanResult. cbn [ScanResponse.findings ScanResponse.priorities].
  set (h1 := get hh _). set (h2 := get hh _). set (h3 := get hh _).
  set (h4 := get hh _). set (h5 := get hh _). set (h6 := get hh _).
  pose proof (findings_needsAdvice he hr h1 h2 h3 h4 h5 h6) as N.
  pose proof (findings_advice he hr h1 h2 h3 h4 h5 h6) as A.
  pose proof (findings_keys he hr h1 h2 h3 h4 h5 h6) as K.
  set (fs := findings he hr h1 h2 h3 h4 h5 h6) in *.
  rewrite Forall_forall in N, A.
  assert (E : filter needsAdvice fs = filter failing fs)
    by (apply filter_ext_in; exact N).
  assert (P : priorities fs
              = map (fun f => Priority.mk (Finding.key f) (Finding.advice f))
                    (firstn 3 (filter failing fs)))
    by (unfold priorities; now rewrite E).
  refine (conj _ (conj _ (conj _ (conj _ (conj _ _))))).
  - rewrite P, length_map, length_firstn. lia.
  - reflexivity.
  - exact P.
  - rewrite P, map_map. cbn [Priority.key]. now rewrite firstn_map.
  - intros q Hq. rewrite P in Hq. apply in_map_iff in Hq.
    destruct Hq as [f [<- Hf]].
    assert (Hin : In f (filter failing fs))
      by (eapply firstn_In; exact Hf).
    apply filter_In in Hin. destruct Hin as [Hin Hfail].
    unfold failing in Hfail. apply negb_true_iff in Hfail.
    destruct (Finding.advice f) as [a|] eqn:Ha.
    + exists f, a. cbn [Priority.key Priority.advice]. repeat split; trivial.
    + exfalso. apply (A f Hin) in Hfail. congruence.
  - intros All. rewrite P, map_map. cbn [Priority.key].
    rewrite filter_all.
    + reflexivity.
    + intros f Hf. unfold failing. now rewrite (All f Hf).
Qed.

(** ** The two probes *)

Lemma httpsSignal_enabled (r : Completion Res.t) :
  fst (httpsSignal r) = true
  <-> exists res, r = Normal res /\ (200 <= Res.status res < 400)%Z.
Proof.
  destruct r as [res|e]; simpl.
  - unfold Res.ok. split.
    + intros H. exists res. split; [reflexivity|]. lia.
    + intros [res' [[= <-] H]]. lia.
  - split; [discriminate | intros [res [H _]]; discriminate].
Qed.

Lemma not_startsWithCI_empty : ~ startsWithCI "https://" EmptyString.
Proof.
  rewrite startsWithCI_stripCI. simpl. congruence.
Qed.

Lemma httpSignal_redirects (r : Completion Res.t) :
  httpSignal r = true
  <-> exists res loc,
        r = Normal res
        /\ In (Res.status res) [301; 302; 307; 308]%Z
        /\ Headers.get (Res.headers res) "location" = Some loc
        /\ startsWithCI "https://" loc.
Proof.
  destruct r as [res|e]; simpl.
  - rewrite andb_true_iff, test_re_https. split.
    + intros [Hs Hl].
      destruct (Headers.get (Res.headers res) "location") as [loc|] eqn:G.
      * exists res, loc. repeat split; trivial.
        simpl in Hs. rewrite !orb_true_iff, !Z.eqb_eq in Hs. simpl. intuition lia.
      * simpl in Hl. now apply not_startsWithCI_empty in Hl.
    + intros [res' [loc [[= <-] [Hs [G Hl]]]]]. rewrite G. split; [|exact Hl].
      simpl in Hs. rewrite !orb_true_iff, !Z.eqb_eq. intuition lia.
  - split; [discriminate | intros [res [loc [H _]]]; discriminate].
Qed.

(** C5.  The HTTPS probe always ends normally.  httpsEnabled is true exactly
    when the fetch completed with a final status from 200 up to, not including,
    400; when the fetch is rejected httpsEnabled is false and the scan still
    answers. *)
Theorem httpsEnabled_iff_status_in_range
    (newURL : string -> Completion URL.t)
    (network : string -> Redirect -> Completion Res.t)
    (req : NextRequest.t) (s : string) (t : ScanTarget.t) :
  asksFor req s ->
  normalizeUrl newURL s = Normal t ->
  let outcome := network (ScanTarget.httpsUrl t) follow in
  exists p log httpsHeaders,
    probeHttps network (ScanTarget.httpsUrl t) []
      = (Normal (ScanResponse.httpsEnabled p, httpsHeaders),
         [mkCall (ScanTarget.httpsUrl t) follow])
    /\ handle newURL network req = (Normal (Response.mk 200 (PayloadJson p)), log)
    /\ (ScanResponse.httpsEnabled p = true
        <-> exists res, outcome = Normal res /\ (200 <= Res.status res < 400)%Z)
    /\ (forall e, outcome = Throw e -> ScanResponse.httpsEnabled p = false).
Proof.
  intros A Hn outcome.
  eexists. eexists. exists (snd (httpsSignal outcome)).
  split; [|split; [apply (handle_scan newURL network req s t A Hn) | split]].
  - rewrite probeHttps_run. cbn [ScanResponse.httpsEnabled scanResult app].
    fold outcome. now destruct (httpsSignal outcome).
  - cbn [ScanResponse.httpsEnabled scanResult]. apply httpsSignal_enabled.
  - intros e He. cbn [ScanResponse.httpsEnabled scanResult].
    fold outcome. now rewrite He.
Qed.

(** C6.  The HTTP probe issues one fetch with redirects not followed and always
    ends normally.  httpRedirectsToHttps is true exactly when the response has
    status 301, 302, 307 or 308 and a Location value that starts with https://,
    letter case apart, whatever follows that prefix; a rejected fetch gives
    false. *)
Theorem httpRedirectsToHttps_iff_redirect_to_https
    (newURL : string -> Completion URL.t)
    (network : string -> Redirect -> Completion Res.t)
    (req : NextRequest.t) (s : string) (t : ScanTarget.t) :
  asksFor req s ->
  normalizeUrl newURL s = Normal t ->
  let outcome := network (ScanTarget.httpUrl t) manual in
  exists p log,
    probeHttp network (ScanTarget.httpUrl t) []
      = (Normal (ScanResponse.httpRedirectsToHttps p),
         [mkCall (ScanTarget.httpUrl t) manual])
    /\ handle newURL network req = (Normal (Response.mk 200 (PayloadJson p)), log)
    /\ (ScanResponse.httpRedirectsToHttps p = true
        <-> exists res loc,
              outcome = Normal res
              /\ In (Res.status res) [301; 302; 307; 308]%Z
              /\ Headers.get (Res.headers res) "location" = Some loc
              /\ startsWithCI "https://" loc)
    /\ (forall res scheme rest,
          outcome = Normal res ->
          In (Res.status res) [301; 302; 307; 308]%Z ->
          toUpperCase scheme = "HTTPS://" ->
          Headers.get (Res.headers res) "location" = Some (scheme ++ rest)%string ->
          ScanResponse.httpRedirectsToHttps p = true)
    /\ (forall e, outcome = Throw e -> ScanResponse.httpRedirectsToHttps p = false).
Proof.
  intros A Hn outcome.
  eexists. eexists.
  split; [|split; [apply (handle_scan newURL network req s t A Hn) | split; [|split]]].
  - rewrite probeHttp_run. reflexivity.
  - cbn [ScanResponse.httpRedirectsToHttps scanResult]. apply httpSignal_redirects.
  - intros res scheme rest Ho Hs Hc Hl.
    cbn [ScanResponse.httpRedirectsToHttps scanResult].
    apply httpSignal_redirects. exists res, (scheme ++ rest)%string.
    repeat split; trivial. now exists scheme, rest.
  - intros e He. cbn [ScanResponse.httpRedirectsToHttps scanResult].
    fold outcome. now rewrite He.
Qed.

(** ** Degradation and retention of the HTTPS headers *)

(** C2.  When the HTTPS fetch is rejected, the scan still answers 200 with a
    complete result: httpsEnabled is false, the six header values are absent and
    the six header findings are not ok.  The probe hands headers to the
    extraction only when its fetch produced a response, and then they are that
    response's headers. *)
Theorem https_failure_degrades_to_absent_headers
    (newURL : string -> Completion URL.t)
    (network : string -> Redirect -> Completion Res.t)
    (req : NextRequest.t) (s : string) (t : ScanTarget.t) (e : Thrown) :
  asksFor req s ->
  normalizeUrl newURL s = Normal t ->
  network (ScanTarget.httpsUrl t) follow = Throw e ->
  (exists p log,
     handle newURL network req = (Normal (Response.mk 200 (PayloadJson p)), log)
     /\ probeHttps network (ScanTarget.httpsUrl t) []
        = (Normal (false, None), [mkCall (ScanTarget.httpsUrl t) follow])
     /\ ScanResponse.httpsEnabled p = false
     /\ ScanResponse.headers p = noHeaders
     /\ length (ScanResponse.findings p) = 8%nat
     /\ map Finding.key (skipn 2 (ScanResponse.findings p)) = headerKeys
     /\ map Finding.ok (skipn 2 (ScanResponse.findings p))
        = [false; false; false; false; false; false]
     /\ map Finding.key (firstn 1 (ScanResponse.findings p)) = ["httpsEnabled"]
     /\ map Finding.ok (firstn 1 (ScanResponse.findings p)) = [false])
  /\ (forall url log0 b h log1,
        probeHttps network url log0 = (Normal (b, Some h), log1) ->
        exists res, network url follow = Normal res /\ h = Res.headers res).
Proof.
  intros A Hn He. split.
  - eexists. eexists. split; [apply (handle_scan newURL network req s t A Hn)|].
    rewrite probeHttps_run, He. cbn [httpsSignal fst snd].
    repeat split.
  - intros url log0 b h log1. rewrite probeHttps_run.
    destruct (network url follow) as [res|e']; simpl; intros E.
    + exists res. split; [reflexivity | congruence].
    + discriminate.
Qed.

(** C10.  When the HTTPS fetch produces a response, its headers are the ones the
    six look-ups read, whatever the status; httpsEnabled is false exactly when
    the status is outside 200 to 399.  So with such a status and a non-empty
    Strict-Transport-Security value, the hsts finding is ok while the
    httpsEnabled finding is not. *)
Theorem headers_retained_whatever_the_status
    (newURL : string -> Completion URL.t)
    (network : string -> Redirect -> Completion Res.t)
    (req : NextRequest.t) (s : string) (t : ScanTarget.t) (res : Res.t) :
  asksFor req s ->
  normalizeUrl newURL s = Normal t ->
  network (ScanTarget.httpsUrl t) follow = Normal res ->
  exists p log,
    handle newURL network req = (Normal (Response.mk 200 (PayloadJson p)), log)
    /\ probeHttps network (ScanTarget.httpsUrl t) []
       = (Normal (ScanResponse.httpsEnabled p, Some (Res.headers res)),
          [mkCall (ScanTarget.httpsUrl t) follow])
    /\ ScanResponse.headers p
       = SecurityHeaders.mk
           (Headers.get (Res.headers res) "strict-transport-security")
           (Headers.get (Res.headers res) "content-security-policy")
           (Headers.get (Res.headers res) "x-frame-options")
           (Headers.get (Res.headers res) "x-content-type-options")
           (Headers.get (Res.headers res) "referrer-policy")
           (Headers.get (Res.headers res) "permissions-policy")
    /\ (ScanResponse.httpsEnabled p = false
        <-> ~ (200 <= Res.status res < 400)%Z)
    /\ (~ (200 <= Res.status res < 400)%Z ->
        toBoolHeader (Headers.get (Res.headers res) "strict-transport-security") = true ->
        map Finding.key (firstn 3 (ScanResponse.findings p))
          = ["httpsEnabled"; "httpRedirectsToHttps"; "hsts"]
        /\ map Finding.ok (firstn 3 (ScanResponse.findings p))
          = [false; ScanResponse.httpRedirectsToHttps p; true]).
Proof.
  intros A Hn Hr.
  eexists. eexists. split; [apply (handle_scan newURL network req s t A Hn)|].
  rewrite probeHttps_run, Hr.
  assert (R : fst (httpsSignal (Normal res)) = false
              <-> ~ (200 <= Res.status res < 400)%Z).
  { pose proof (httpsSignal_enabled (Normal res)) as H.
    destruct (fst (httpsSignal (Normal res))).
    - split; [discriminate|]. intros N. exfalso. apply N.
      destruct H as [H _]. destruct (H eq_refl) as [res' [[= <-] Hs]]. exact Hs.
    - split; [|reflexivity]. intros _ Hs.
      destruct H as [_ H]. assert (false = true) by (apply H; eauto). discriminate. }
  refine (conj _ (conj _ (conj _ _))).
  - reflexivity.
  - reflexivity.
  - exact R.
  - intros Hs Hh. apply R in Hs.
    cbn [scanResult ScanResponse.findings ScanResponse.httpRedirectsToHttps].
    cbn [httpsSignal snd get] in *.
    unfold findings. cbn [firstn map Finding.key Finding.ok].
    rewrite Hh. cbn [fst] in Hs. rewrite Hs. split; reflexivity.
Qed.

(** ** Input that cannot be scanned *)

Lemma normalizeUrl_throws (newURL : string -> Completion URL.t) (s : string) (e : Thrown) :
  newURL (prefixed s) = Throw e <-> normalizeUrl newURL s = Throw e.
Proof.
  unfold normalizeUrl. cbv zeta.
  destruct (newURL (prefixed s)); split; congruence.
Qed.

Lemma asksFor_unique (req : NextRequest.t) (s s' : string) :
  asksFor req s -> asksFor req s' -> s = s'.
Proof.
  intros [b [Hj [Hu _]]] [b' [Hj' [Hu' _]]]. congruence.
Qed.

(** C9.  When the url is the empty string, or does not parse as a URL after
    trimming and prefixing, the handler answers 400 with an error message, it
    does not throw, and it has issued no fetch. *)
Theorem unscannable_input_is_client_error
    (newURL : string -> Completion URL.t)
    (network : string -> Redirect -> Completion Res.t)
    (req : NextRequest.t) :
  asksForNothing req
  \/ (exists s e, asksFor req s /\ newURL (prefixed s) = Throw e) ->
  exists msg,
    handle newURL network req = (Normal (Response.mk 400 (ErrorJson msg)), [])
    /\ (asksForNothing req -> msg = "Falta 'url' en el body.")
    /\ (forall s e, asksFor req s -> newURL (prefixed s) = Throw e ->
                    msg = errorMessage e).
Proof.
  intros [[body [Hj Hu]] | [s [e [A Hp]]]].
  - exists "Falta 'url' en el body.". split; [|split].
    + unfold handle, POST, try_catch, bind, lift. now rewrite Hj, Hu.
    + reflexivity.
    + intros s e [b [Hj' [Hu' Hs]]] _. congruence.
  - exists (errorMessage e). split; [|split].
    + apply handle_invalid with (s := s); [exact A | now apply normalizeUrl_throws].
    + intros [body [Hj Hu]]. destruct A as [b [Hj' [Hu' Hs]]]. congruence.
    + intros s' e' A' Hp'. rewrite (asksFor_unique req s' s A' A) in Hp'. congruence.
Qed.

(** ** The normaliser *)

(** C4.  [normalizeUrl] trims the input, puts https:// in front when the
    trimmed input starts with neither http:// nor https:// (letter case apart),
    and parses the result.  When it parses, httpsUrl is https:// + host + / and
    httpUrl is http:// + host + /, with the host of the parsed URL: the two end
    in /, differ in the scheme only, and two inputs whose parsed hosts agree
    give the same target, whatever their paths and queries. *)
Theorem normalizeUrl_contract
    (newURL : string -> Completion URL.t) (input : string) :
  let url := trim input in
  (startsWithCI "http://" url \/ startsWithCI "https://" url ->
   prefixed input = url)
  /\ (~ (startsWithCI "http://" url \/ startsWithCI "https://" url) ->
      prefixed input = ("https://" ++ url)%string)
  /\ match newURL (prefixed input) with
     | Throw e => normalizeUrl newURL input = Throw e
     | Normal u =>
       exists t,
         normalizeUrl newURL input = Normal t
         /\ ScanTarget.host t = URL.host u
         /\ ScanTarget.httpsUrl t = ("https://" ++ ScanTarget.host t ++ "/")%string
         /\ ScanTarget.httpUrl t = ("http://" ++ ScanTarget.host t ++ "/")%string
         /\ endsWith "/" (ScanTarget.httpsUrl t)
         /\ endsWith "/" (ScanTarget.httpUrl t)
         /\ (exists rest, ScanTarget.httpsUrl t = ("https://" ++ rest)%string
                          /\ ScanTarget.httpUrl t = ("http://" ++ rest)%string)
         /\ (forall input' u',
               newURL (prefixed input') = Normal u' ->
               URL.host u' = URL.host u ->
               normalizeUrl newURL input' = Normal t)
     end.
Proof.
  intros url. split; [|split].
  - intros H. apply test_re_http_or_https in H.
    unfold prefixed. fold url. now rewrite H.
  - intros H. unfold prefixed. fold url.
    destruct (test true re_http_or_https url) eqn:E; [|reflexivity].
    exfalso. apply H. now apply test_re_http_or_https.
  - unfold normalizeUrl. cbv zeta.
    destruct (newURL (prefixed input)) as [u|e]; [|reflexivity].
    eexists. split; [reflexivity|]. cbn [ScanTarget.host ScanTarget.httpsUrl ScanTarget.httpUrl].
    refine (conj _ (conj _ (conj _ (conj _ (conj _ (conj _ _)))))); try reflexivity.
    + exists ("https://" ++ URL.host u)%string. simpl. reflexivity.
    + exists ("http://" ++ URL.host u)%string. simpl. reflexivity.
    + exists (URL.host u ++ "/")%string. split; reflexivity.
    + intros input' u' Hp Hh. rewrite Hp, Hh. reflexivity.
Qed.

(** ** The statements at sample requests *)

Lemma score_counts_ok_findings_witness :
  let p := scanResult "example.com" true (Some Sample.allHeaders) true in
  let fs := ScanResponse.findings p in
  completes Sample.newURL
    (Sample.site (Sample.answers 200 Sample.allHeaders)
                 (Sample.answers 301 [("Location", "https://example.com/")]))
    (Sample.request "example.com") p
  /\ (length fs = 8%nat
      /\ ScanResponse.score p = score fs true true
      /\ ScanResponse.score p = (10 * Z.of_nat (length (filter Finding.ok fs)))%Z
      /\ ScanResponse.score p =
         (10 * Z.of_nat (length (filter Finding.ok (skipn 2 fs)))
          + (if true then 10 else 0) + (if true then 10 else 0))%Z
      /\ (exists k, ScanResponse.score p = 10 * k)%Z
      /\ (0 <= ScanResponse.score p <= 100)%Z
      /\ Z.max 0 (Z.min 100 (rawScore fs true true)) = rawScore fs true true).
Proof.
  assert (C : completes Sample.newURL
                (Sample.site (Sample.answers 200 Sample.allHeaders)
                   (Sample.answers 301 [("Location", "https://example.com/")]))
                (Sample.request "example.com")
                (scanResult "example.com" true (Some Sample.allHeaders) true))
    by (eexists; vm_compute; reflexivity).
  split; [exact C|].
  exact (score_counts_ok_findings _ _ _ _ C).
Defined.

Lemma findings_fixed_order_and_ok_witness :
  let hs := [ ("Strict-Transport-Security", "max-age=1");
              ("content-security-policy", EmptyString) ] in
  let p := scanResult "shop.example:8443" false (Some hs) false in
  completes Sample.newURL (Sample.site (Sample.answers 404 hs) Sample.rejected)
    (Sample.request "https://Shop.Example:8443/cart?x=1") p
  /\ (map Finding.key (ScanResponse.findings p) =
        [ "httpsEnabled"; "httpRedirectsToHttps"; "hsts"; "csp"; "x-frame-options";
          "x-content-type-options"; "referrer-policy"; "permissions-policy" ]
      /\ map Finding.ok (ScanResponse.findings p) =
        [ false; false; true; false; false; false; false; false ]
      /\ (exists httpsHeaders,
            ScanResponse.headers p = SecurityHeaders.mk
               (get httpsHeaders "strict-transport-security")
               (get httpsHeaders "content-security-policy")
               (get httpsHeaders "x-frame-options")
               (get httpsHeaders "x-content-type-options")
               (get httpsHeaders "referrer-policy")
               (get httpsHeaders "permissions-policy"))
      /\ (forall h, toBoolHeader h = true <-> exists v, h = Some v /\ v <> EmptyString)
      /\ toBoolHeader (Some EmptyString) = false
      /\ toBoolHeader None = false).
Proof.
  intros hs p.
  assert (C : completes Sample.newURL (Sample.site (Sample.answers 404 hs) Sample.rejected)
                (Sample.request "https://Shop.Example:8443/cart?x=1") p)
    by (eexists; vm_compute; reflexivity).
  split; [exact C|].
  exact (findings_fixed_order_and_ok _ _ _ _ C).
Defined.

Lemma advice_iff_not_ok_witness :
  let p := scanResult "example.com" false None false in
  completes Sample.newURL Sample.offline (Sample.request "example.com") p
  /\ (forall f, In f (ScanResponse.findings p) ->
        (Finding.advice f <> None <-> Finding.ok f = false)
        /\ (Finding.ok f = true -> Finding.advice f = None)).
Proof.
  intros p.
  assert (C : completes Sample.newURL Sample.offline (Sample.request "example.com") p)
    by (eexists; vm_compute; reflexivity).
  split; [exact C|].
  exact (advice_iff_not_ok _ _ _ _ C).
Defined.

Lemma priorities_first_three_failures_witness :
  let hs := [("X-Frame-Options", "DENY")] in
  let p := scanResult "example.com" true (Some hs) false in
  let fs := ScanResponse.findings p in
  let ps := ScanResponse.priorities p in
  completes Sample.newURL
    (Sample.site (Sample.answers 200 hs) (Sample.answers 200 []))
    (Sample.request "  example.com/tienda  ") p
  /\ ((length ps <= 3)%nat
      /\ ps = priorities fs
      /\ ps = map (fun f => Priority.mk (Finding.key f) (Finding.advice f))
                  (firstn 3 (filter failing fs))
      /\ map Priority.key ps = ["httpRedirectsToHttps"; "hsts"; "csp"]
      /\ (forall q, In q ps ->
            exists f a, In f fs /\ Finding.ok f = false
                        /\ Finding.key f = Priority.key q
                        /\ Finding.advice f = Some a /\ Priority.advice q = Some a)
      /\ ((forall f, In f fs -> Finding.ok f = false) ->
            map Priority.key ps = ["httpsEnabled"; "httpRedirectsToHttps"; "hsts"])).
Proof.
  intros hs p fs ps.
  assert (C : completes Sample.newURL
                (Sample.site (Sample.answers 200 hs) (Sample.answers 200 []))
                (Sample.request "  example.com/tienda  ") p)
    by (eexists; vm_compute; reflexivity).
  split; [exact C|].
  exact (priorities_first_three_failures _ _ _ _ C).
Defined.

Lemma httpsEnabled_iff_status_in_range_witness :
  let network := Sample.site (Sample.answers 399 []) Sample.rejected in
  let req := Sample.request "example.com" in
  asksFor req "example.com"
  /\ normalizeUrl Sample.newURL "example.com" = Normal Sample.exampleTarget
  /\ exists p log httpsHeaders,
       probeHttps network "https://example.com/" []
         = (Normal (ScanResponse.httpsEnabled p, httpsHeaders),
            [mkCall "https://example.com/" follow])
       /\ handle Sample.newURL network req
          = (Normal (Response.mk 200 (PayloadJson p)), log)
       /\ (ScanResponse.httpsEnabled p = true
           <-> exists res, Sample.answers 399 [] = Normal res
                           /\ (200 <= Res.status res < 400)%Z)
       /\ (forall e, Sample.answers 399 [] = Throw e ->
                     ScanResponse.httpsEnabled p = false).
Proof.
  intros network req.
  assert (A : asksFor req "example.com") by (eexists; repeat split; discriminate).
  assert (N : normalizeUrl Sample.newURL "example.com" = Normal Sample.exampleTarget)
    by (vm_compute; reflexivity).
  split; [exact A | split; [exact N|]].
  exact (httpsEnabled_iff_status_in_range Sample.newURL network req _ _ A N).
Defined.

Lemma httpRedirectsToHttps_iff_redirect_to_https_witness :
  let http := Sample.answers 308 [("LOCATION", "HTTPS://other.example/a/b")] in
  let network := Sample.site Sample.rejected http in
  let req := Sample.request "http://example.com" in
  asksFor req "http://example.com"
  /\ normalizeUrl Sample.newURL "http://example.com" = Normal Sample.exampleTarget
  /\ exists p log,
       probeHttp network "http://example.com/" []
         = (Normal (ScanResponse.httpRedirectsToHttps p),
            [mkCall "http://example.com/" manual])
       /\ handle Sample.newURL network req
          = (Normal (Response.mk 200 (PayloadJson p)), log)
       /\ (ScanResponse.httpRedirectsToHttps p = true
           <-> exists res loc,
                 http = Normal res
                 /\ In (Res.status res) [301; 302; 307; 308]%Z
                 /\ Headers.get (Res.headers res) "location" = Some loc
                 /\ startsWithCI "https://" loc)
       /\ (forall res scheme rest,
             http = Normal res ->
             In (Res.status res) [301; 302; 307; 308]%Z ->
             toUpperCase scheme = "HTTPS://" ->
             Headers.get (Res.headers res) "location" = Some (scheme ++ rest)%string ->
             ScanResponse.httpRedirectsToHttps p = true)
       /\ (forall e, http = Throw e -> ScanResponse.httpRedirectsToHttps p = false).
Proof.
  intros http network req.
  assert (A : asksFor req "http://example.com") by (eexists; repeat split; discriminate).
  assert (N : normalizeUrl Sample.newURL "http://example.com" = Normal Sample.exampleTarget)
    by (vm_compute; reflexivity).
  split; [exact A | split; [exact N|]].
  exact (httpRedirectsToHttps_iff_redirect_to_https Sample.newURL network req _ _ A N).
Defined.

Lemma https_failure_degrades_to_absent_headers_witness :
  let network := Sample.site Sample.rejected (Sample.answers 200 []) in
  let req := Sample.request "example.com" in
  asksFor req "example.com"
  /\ normalizeUrl Sample.newURL "example.com" = Normal Sample.exampleTarget
  /\ network "https://example.com/" follow = Throw (ErrorObject "fetch failed")
  /\ (exists p log,
        handle Sample.newURL network req
          = (Normal (Response.mk 200 (PayloadJson p)), log)
        /\ probeHttps network "https://example.com/" []
           = (Normal (false, None), [mkCall "https://example.com/" follow])
        /\ ScanResponse.httpsEnabled p = false
        /\ ScanResponse.headers p = noHeaders
        /\ length (ScanResponse.findings p) = 8%nat
        /\ map Finding.key (skipn 2 (ScanResponse.findings p)) = headerKeys
        /\ map Finding.ok (skipn 2 (ScanResponse.findings p))
           = [false; false; false; false; false; false]
        /\ map Finding.key (firstn 1 (ScanResponse.findings p)) = ["httpsEnabled"]
        /\ map Finding.ok (firstn 1 (ScanResponse.findings p)) = [false])
  /\ (forall url log0 b h log1,
        probeHttps network url log0 = (Normal (b, Some h), log1) ->
        exists res, network url follow = Normal res /\ h = Res.headers res).
Proof.
  intros network req.
  assert (A : asksFor req "example.com") by (eexists; repeat split; discriminate).
  assert (N : normalizeUrl Sample.newURL "example.com" = Normal Sample.exampleTarget)
    by (vm_compute; reflexivity).
  assert (F : network "https://example.com/" follow = Throw (ErrorObject "fetch failed"))
    by reflexivity.
  split; [exact A | split; [exact N | split; [exact F|]]].
  exact (https_failure_degrades_to_absent_headers
           Sample.newURL network req _ _ _ A N F).
Defined.

Lemma headers_retained_whatever_the_status_witness :
  let res := Res.mk 500 [("Strict-Transport-Security", "max-age=31536000")] in
  let network := Sample.site (Normal res) Sample.rejected in
  let req := Sample.request "example.com" in
  asksFor req "example.com"
  /\ normalizeUrl Sample.newURL "example.com" = Normal Sample.exampleTarget
  /\ network "https://example.com/" follow = Normal res
  /\ exists p log,
       handle Sample.newURL network req
         = (Normal (Response.mk 200 (PayloadJson p)), log)
       /\ probeHttps network "https://example.com/" []
          = (Normal (ScanResponse.httpsEnabled p, Some (Res.headers res)),
             [mkCall "https://example.com/" follow])
       /\ ScanResponse.headers p
          = SecurityHeaders.mk (Some "max-age=31536000") None None None None None
       /\ (ScanResponse.httpsEnabled p = false
           <-> ~ (200 <= 500 < 400)%Z)
       /\ (~ (200 <= 500 < 400)%Z ->
           toBoolHeader (Some "max-age=31536000") = true ->
           map Finding.key (firstn 3 (ScanResponse.findings p))
             = ["httpsEnabled"; "httpRedirectsToHttps"; "hsts"]
           /\ map Finding.ok (firstn 3 (ScanResponse.findings p))
             = [false; ScanResponse.httpRedirectsToHttps p; true]).
Proof.
  intros res network req.
  assert (A : asksFor req "example.com") by (eexists; repeat split; discriminate).
  assert (N : normalizeUrl Sample.newURL "example.com" = Normal Sample.exampleTarget)
    by (vm_compute; reflexivity).
  assert (F : network "https://example.com/" follow = Normal res) by reflexivity.
  split; [exact A | split; [exact N | split; [exact F|]]].
  exact (headers_retained_whatever_the_status
           Sample.newURL network req _ _ _ A N F).
Defined.

Lemma unscannable_input_is_client_error_witness :
  let req := NextRequest.mk (Normal (JObject [("url", JString EmptyString)])) in
  (asksForNothing req
   \/ (exists s e, asksFor req s /\ Sample.newURL (prefixed s) = Throw e))
  /\ exists msg,
       handle Sample.newURL Sample.offline req
         = (Normal (Response.mk 400 (ErrorJson msg)), [])
       /\ (asksForNothing req -> msg = "Falta 'url' en el body.")
       /\ (forall s e, asksFor req s -> Sample.newURL (prefixed s) = Throw e ->
                       msg = errorMessage e).
Proof.
  intros req.
  assert (H : asksForNothing req
              \/ (exists s e, asksFor req s /\ Sample.newURL (prefixed s) = Throw e))
    by (left; eexists; split; reflexivity).
  split; [exact H|].
  exact (unscannable_input_is_client_error Sample.newURL Sample.offline req H).
Defined.

(** Blank input is prefixed to [https://], which has no host. *)
Example blank_input_is_client_error :
  handle Sample.newURL Sample.offline (Sample.request "   ")
  = (Normal (Response.mk 400 (ErrorJson "Invalid URL")), []).
Proof. vm_compute. reflexivity. Qed.

(** A body without [url], and a body that is [null]. *)
Example missing_url_is_client_error :
  handle Sample.newURL Sample.offline (NextRequest.mk (Normal (JObject [])))
  = (Normal (Response.mk 400 (ErrorJson "Falta 'url' en el body.")), [])
  /\ handle Sample.newURL Sample.offline (NextRequest.mk (Normal JNull))
     = (Normal (Response.mk 400
                  (ErrorJson "Cannot read properties of null (reading 'url')")), []).
Proof. split; vm_compute; reflexivity. Qed.

Example normalizeUrl_examples :
  normalizeUrl Sample.newURL "example.com" = Normal Sample.exampleTarget
  /\ normalizeUrl Sample.newURL "  HTTP://Example.com/shop?x=1#top  "
     = Normal Sample.exampleTarget
  /\ normalizeUrl Sample.newURL "https://example.com:8443/a"
     = Normal (ScanTarget.mk "https://example.com:8443/" "http://example.com:8443/"
                             "example.com:8443")
  /\ normalizeUrl Sample.newURL EmptyString = Throw (ErrorObject "Invalid URL").
Proof. repeat split; vm_compute; reflexivity. Qed.

(** With all eight findings ok the score is 80: eight findings of 10 points. *)
Example score_of_a_clean_site :
  ScanResponse.score (scanResult "example.com" true (Some Sample.allHeaders) true) = 80%Z
  /\ ScanResponse.priorities (scanResult "example.com" true (Some Sample.allHeaders) true)
     = [].
Proof. split; vm_compute; reflexivity. Qed.

Example score_offline :
  ScanResponse.score (scanResult "example.com" false None false) = 0%Z
  /\ map Priority.key (ScanResponse.priorities (scanResult "example.com" false None false))
     = ["httpsEnabled"; "httpRedirectsToHttps"; "hsts"].
Proof. split; vm_compute; reflexivity. Qed.

(** * Further properties of the handler *)

(** ** Every request is answered *)

(** X1.  [POST] never throws.  It answers either 400 with an error body and
    has issued no fetch, or 200 with a payload after exactly two fetches: first
    https://host/ following redirects, then http://host/ without following
    them, where host is the host the payload reports. *)
Theorem POST_always_answers
    (newURL : string -> Completion URL.t)
    (network : string -> Redirect -> Completion Res.t)
    (req : NextRequest.t) :
  exists res log,
    handle newURL network req = (Normal res, log)
    /\ ((Response.status res = 400%Z
         /\ (exists msg, Response.body res = ErrorJson msg)
         /\ log = [])
        \/ (Response.status res = 200%Z
            /\ exists p,
                 Response.body res = PayloadJson p
                 /\ log = [ mkCall ("https://" ++ ScanResponse.host p ++ "/") follow;
                            mkCall ("http://" ++ ScanResponse.host p ++ "/") manual ])).
Proof.
  destruct (handle_cases newURL network req) as [[msg E] | [s [t [A Hn]]]].
  - eexists. eexists. split; [exact E|]. left. cbn. eauto.
  - eexists. eexists. split; [apply (handle_scan newURL network req s t A Hn)|].
    right. split; [reflexivity|]. eexists. split; [reflexivity|].
    cbn [scanResult ScanResponse.host].
    unfold normalizeUrl in Hn. cbv zeta in Hn.
    destruct (newURL (prefixed s)) as [u|e]; [|discriminate].
    injection Hn as <-. reflexivity.
Qed.

(** X2.  When [req.json()] throws, the handler answers 400 with the message of
    the thrown error, or with "Error inesperado" when what was thrown is not an
    Error, and issues no fetch. *)
Theorem unreadable_body_is_client_error
    (newURL : string -> Completion URL.t)
    (network : string -> Redirect -> Completion Res.t)
    (req : NextRequest.t) (e : Thrown) :
  NextRequest.json req = Throw e ->
  handle newURL network req
  = (Normal (Response.mk 400
       (ErrorJson (match e with
                   | ErrorObject m => m
                   | OtherValue => "Error inesperado"
                   end))), []).
Proof.
  intros Hj. unfold handle, POST, try_catch, bind, lift. rewrite Hj.
  destruct e; reflexivity.
Qed.

Lemma unreadable_body_is_client_error_witness :
  let req := NextRequest.mk (Throw (ErrorObject "Unexpected end of JSON input")) in
  NextRequest.json req = Throw (ErrorObject "Unexpected end of JSON input")
  /\ handle Sample.newURL Sample.offline req
     = (Normal (Response.mk 400 (ErrorJson "Unexpected end of JSON input")), []).
Proof.
  intros req. split; [reflexivity|].
  exact (unreadable_body_is_client_error Sample.newURL Sample.offline req _ eq_refl).
Defined.

(** X3.  When the body parses but its [url] is missing or is not a string
    (a number, a boolean, null, an array, an object), the handler answers 400
    with "Falta 'url' en el body." and issues no fetch; a body that is not an
    object has no [url]. *)
Theorem missing_or_non_string_url_is_client_error
    (newURL : string -> Completion URL.t)
    (network : string -> Redirect -> Completion Res.t)
    (req : NextRequest.t) (body url : JsValue) :
  NextRequest.json req = Normal body ->
  get_url body = Normal url ->
  (forall s, url <> JString s) ->
  handle newURL network req
  = (Normal (Response.mk 400 (ErrorJson "Falta 'url' en el body.")), [])
  /\ (forall b n s items,
        get_url (JBool b) = Normal JUndefined
        /\ get_url (JNumber n) = Normal JUndefined
        /\ get_url (JString s) = Normal JUndefined
        /\ get_url (JArray items) = Normal JUndefined
        /\ get_url (JObject []) = Normal JUndefined).
Proof.
  intros Hj Hu Hs. split.
  - unfold handle, POST, try_catch, bind, lift. rewrite Hj, Hu.
    assert (T : typeof_string url = false).
    { destruct url; try reflexivity. exfalso. now apply (Hs s). }
    rewrite T, orb_true_r. reflexivity.
  - intros. repeat split.
Qed.

Lemma missing_or_non_string_url_is_client_error_witness :
  let body := JObject [("url", JNumber false); ("uri", JString "example.com")] in
  let req := NextRequest.mk (Normal body) in
  NextRequest.json req = Normal body
  /\ get_url body = Normal (JNumber false)
  /\ (forall s, JNumber false <> JString s)
  /\ (handle Sample.newURL Sample.offline req
      = (Normal (Response.mk 400 (ErrorJson "Falta 'url' en el body.")), [])
      /\ (forall b n s items,
            get_url (JBool b) = Normal JUndefined
            /\ get_url (JNumber n) = Normal JUndefined
            /\ get_url (JString s) = Normal JUndefined
            /\ get_url (JArray items) = Normal JUndefined
            /\ get_url (JObject []) = Normal JUndefined)).
Proof.
  intros body req.
  assert (H : forall s, JNumber false <> JString s) by (intros s; discriminate).
  split; [reflexivity | split; [reflexivity | split; [exact H|]]].
  exact (missing_or_non_string_url_is_client_error
           Sample.newURL Sample.offline req body _ eq_refl eq_refl H).
Defined.

(** ** The two probes do not influence each other *)

(** X4.  For one request scanned over two networks: when the two networks
    answer the HTTPS fetches alike, httpsEnabled and the six header values are
    the same, whatever the HTTP fetch returns (its headers are never read for
    them); when they answer the HTTP fetches alike, httpRedirectsToHttps is the
    same, whatever the HTTPS fetch returns.  The host is the same in any case. *)
Theorem probes_are_independent
    (newURL : string -> Completion URL.t)
    (net1 net2 : string -> Redirect -> Completion Res.t)
    (req : NextRequest.t) (p1 p2 : ScanResponse.t) :
  completes newURL net1 req p1 ->
  completes newURL net2 req p2 ->
  ScanResponse.host p1 = ScanResponse.host p2
  /\ ((forall u, net1 u follow = net2 u follow) ->
      ScanResponse.httpsEnabled p1 = ScanResponse.httpsEnabled p2
      /\ ScanResponse.headers p1 = ScanResponse.headers p2)
  /\ ((forall u, net1 u manual = net2 u manual) ->
      ScanResponse.httpRedirectsToHttps p1 = ScanResponse.httpRedirectsToHttps p2).
Proof.
  intros C1 C2.
  destruct (completes_inv _ _ _ _ C1) as [s1 [t1 [A1 [N1 ->]]]].
  destruct (completes_inv _ _ _ _ C2) as [s2 [t2 [A2 [N2 ->]]]].
  assert (s1 = s2) by (eapply asksFor_unique; eassumption). subst s2.
  assert (t1 = t2) by congruence. subst t2.
  cbn [scanResult ScanResponse.host ScanResponse.httpsEnabled
       ScanResponse.headers ScanResponse.httpRedirectsToHttps].
  split; [reflexivity | split].
  - intros H. rewrite H. split; reflexivity.
  - intros H. rewrite H. reflexivity.
Qed.

Lemma probes_are_independent_witness :
  let hs := [("Content-Security-Policy", "default-src 'self'")] in
  let net1 := Sample.site (Sample.answers 200 hs) Sample.rejected in
  let net2 := Sample.site (Sample.answers 200 hs)
                (Sample.answers 301 [ ("Location", "https://example.com/");
                                      ("Strict-Transport-Security", "max-age=1") ]) in
  let p1 := scanResult "example.com" true (Some hs) false in
  let p2 := scanResult "example.com" true (Some hs) true in
  completes Sample.newURL net1 (Sample.request "example.com") p1
  /\ completes Sample.newURL net2 (Sample.request "example.com") p2
  /\ (ScanResponse.host p1 = ScanResponse.host p2
      /\ ((forall u, net1 u follow = net2 u follow) ->
          ScanResponse.httpsEnabled p1 = ScanResponse.httpsEnabled p2
          /\ ScanResponse.headers p1 = ScanResponse.headers p2)
      /\ ((forall u, net1 u manual = net2 u manual) ->
          ScanResponse.httpRedirectsToHttps p1 = ScanResponse.httpRedirectsToHttps p2)).
Proof.
  intros hs net1 net2 p1 p2.
  assert (C1 : completes Sample.newURL net1 (Sample.request "example.com") p1)
    by (eexists; vm_compute; reflexivity).
  assert (C2 : completes Sample.newURL net2 (Sample.request "example.com") p2)
    by (eexists; vm_compute; reflexivity).
  split; [exact C1 | split; [exact C2|]].
  exact (probes_are_independent _ _ _ _ _ _ C1 C2).
Defined.

(** ** Score, failures and priorities *)

Lemma filter_split_length {A : Type} (p : A -> bool) (l : list A) :
  (length (filter p l) + length (filter (fun x => negb (p x)) l) = length l)%nat.
Proof.
  induction l as [|x l IH]; simpl; [reflexivity|].
  destruct (p x); simpl; lia.
Qed.

Lemma filter_nil_iff {A : Type} (p : A -> bool) (l : list A) :
  filter p l = [] <-> forall x, In x l -> p x = false.
Proof.
  induction l as [|x l IH]; simpl.
  - split; [intros _ y [] | reflexivity].
  - destruct (p x) eqn:E.
    + split; [discriminate|]. intros H. specialize (H x (or_introl eq_refl)). congruence.
    + rewrite IH. split.
      * intros H y [<-|Hy]; [exact E | now apply H].
      * intros H y Hy. apply H. now right.
Qed.

Lemma priorities_of_findings (he hr : bool) (h1 h2 h3 h4 h5 h6 : option string) :
  priorities (findings he hr h1 h2 h3 h4 h5 h6)
  = map (fun f => Priority.mk (Finding.key f) (Finding.advice f))
        (firstn 3 (filter failing (findings he hr h1 h2 h3 h4 h5 h6))).
Proof.
  pose proof (findings_needsAdvice he hr h1 h2 h3 h4 h5 h6) as N.
  rewrite Forall_forall in N. unfold priorities.
  now rewrite (filter_ext_in _ _ _ N).
Qed.

Lemma score_of_findings (he hr : bool) (h1 h2 h3 h4 h5 h6 : option string) :
  score (findings he hr h1 h2 h3 h4 h5 h6) he hr
  = (80 - 10 * Z.of_nat (failures (findings he hr h1 h2 h3 h4 h5 h6)))%Z.
Proof.
  pose proof (rawScore_counts he hr h1 h2 h3 h4 h5 h6) as R.
  pose proof (filter_split_length Finding.ok (findings he hr h1 h2 h3 h4 h5 h6)) as S.
  rewrite findings_length in S.
  unfold score, failures, failing. lia.
Qed.

(** X5.  In every completed scan the score is 80 minus 10 for each finding
    that is not ok.  So it is at most 80, and it is 80 exactly when all eight
    findings are ok. *)
Theorem score_is_80_minus_failures
    (newURL : string -> Completion URL.t)
    (network : string -> Redirect -> Completion Res.t)
    (req : NextRequest.t) (p : ScanResponse.t) :
  completes newURL network req p ->
  let fs := ScanResponse.findings p in
  ScanResponse.score p = (80 - 10 * Z.of_nat (failures fs))%Z
  /\ (ScanResponse.score p <= 80)%Z
  /\ (ScanResponse.score p = 80%Z <-> forall f, In f fs -> Finding.ok f = true).
Proof.
  intros C. destruct (completes_inv _ _ _ _ C) as [s [t [_ [_ ->]]]].
  destruct (httpsSignal _) as [he hh]. cbn [fst snd]. set (hr := httpSignal _).
  cbv zeta. unfold scanResult. cbn [ScanResponse.findings ScanResponse.score].
  rewrite score_of_findings.
  set (fs := findings _ _ _ _ _ _ _ _).
  split; [reflexivity | split; [lia|]].
  assert (E : failures fs = 0%nat <-> forall f, In f fs -> Finding.ok f = true).
  { unfold failures. rewrite length_zero_iff_nil, filter_nil_iff. unfold failing.
    split; intros H f Hf; specialize (H f Hf); destruct (Finding.ok f);
      simpl in *; congruence. }
  rewrite <- E. lia.
Qed.

Lemma score_is_80_minus_failures_witness :
  let hs := [("X-Frame-Options", "DENY"); ("Referrer-Policy", "no-referrer")] in
  let p := scanResult "example.com" true (Some hs) false in
  completes Sample.newURL
    (Sample.site (Sample.answers 204 hs) (Sample.answers 303 []))
    (Sample.request "example.com") p
  /\ (ScanResponse.score p = (80 - 10 * Z.of_nat (failures (ScanResponse.findings p)))%Z
      /\ (ScanResponse.score p <= 80)%Z
      /\ (ScanResponse.score p = 80%Z
          <-> forall f, In f (ScanResponse.findings p) -> Finding.ok f = true)).
Proof.
  intros hs p.
  assert (C : completes Sample.newURL
                (Sample.site (Sample.answers 204 hs) (Sample.answers 303 []))
                (Sample.request "example.com") p)
    by (eexists; vm_compute; reflexivity).
  split; [exact C|].
  exact (score_is_80_minus_failures _ _ _ _ C).
Defined.

(** X6.  In every completed scan the number of priorities is the number of
    failing findings, capped at 3; the list is empty exactly when the score is
    80. *)
Theorem priorities_count
    (newURL : string -> Completion URL.t)
    (network : string -> Redirect -> Completion Res.t)
    (req : NextRequest.t) (p : ScanResponse.t) :
  completes newURL network req p ->
  length (ScanResponse.priorities p) = Nat.min 3 (failures (ScanResponse.findings p))
  /\ (ScanResponse.priorities p = [] <-> ScanResponse.score p = 80%Z).
Proof.
  intros C. destruct (completes_inv _ _ _ _ C) as [s [t [_ [_ ->]]]].
  destruct (httpsSignal _) as [he hh]. cbn [fst snd]. set (hr := httpSignal _).
  unfold scanResult.
  cbn [ScanResponse.findings ScanResponse.score ScanResponse.priorities].
  rewrite score_of_findings, priorities_of_findings.
  set (fs := findings _ _ _ _ _ _ _ _).
  assert (L : length (map (fun f => Priority.mk (Finding.key f) (Finding.advice f))
                          (firstn 3 (filter failing fs)))
              = Nat.min 3 (failures fs))
    by (now rewrite length_map, length_firstn).
  split; [exact L|].
  rewrite <- length_zero_iff_nil, L. lia.
Qed.

Lemma priorities_count_witness :
  let p := scanResult "example.com" false None true in
  completes Sample.newURL
    (Sample.site Sample.rejected
                 (Sample.answers 307 [("location", "https://example.com/")]))
    (Sample.request "example.com") p
  /\ (length (ScanResponse.priorities p)
        = Nat.min 3 (failures (ScanResponse.findings p))
      /\ (ScanResponse.priorities p = [] <-> ScanResponse.score p = 80%Z)).
Proof.
  intros p.
  assert (C : completes Sample.newURL
                (Sample.site Sample.rejected
                   (Sample.answers 307 [("location", "https://example.com/")]))
                (Sample.request "example.com") p)
    by (eexists; vm_compute; reflexivity).
  split; [exact C|].
  exact (priorities_count _ _ _ _ C).
Defined.

(** ** Header values count by presence only *)

Lemma findings_by_presence (he hr : bool)
    (h1 h2 h3 h4 h5 h6 k1 k2 k3 k4 k5 k6 : option string) :
  toBoolHeader h1 = toBoolHeader k1 -> toBoolHeader h2 = toBoolHeader k2 ->
  toBoolHeader h3 = toBoolHeader k3 -> toBoolHeader h4 = toBoolHeader k4 ->
  toBoolHeader h5 = toBoolHeader k5 -> toBoolHeader h6 = toBoolHeader k6 ->
  findings he hr h1 h2 h3 h4 h5 h6 = findings he hr k1 k2 k3 k4 k5 k6.
Proof.
  intros E1 E2 E3 E4 E5 E6. unfold findings.
  now rewrite E1, E2, E3, E4, E5, E6.
Qed.

(** X7.  Two completed scans with the same two probe booleans and with the
    same header values present (non-null and non-empty) have the same findings,
    messages and advice included, the same score and the same priorities: what
    a header says is reported under [headers] and nowhere else. *)
Theorem findings_depend_on_presence_only
    (newURL1 newURL2 : string -> Completion URL.t)
    (net1 net2 : string -> Redirect -> Completion Res.t)
    (req1 req2 : NextRequest.t) (p1 p2 : ScanResponse.t) :
  completes newURL1 net1 req1 p1 ->
  completes newURL2 net2 req2 p2 ->
  ScanResponse.httpsEnabled p1 = ScanResponse.httpsEnabled p2 ->
  ScanResponse.httpRedirectsToHttps p1 = ScanResponse.httpRedirectsToHttps p2 ->
  presence (ScanResponse.headers p1) = presence (ScanResponse.headers p2) ->
  ScanResponse.findings p1 = ScanResponse.findings p2
  /\ ScanResponse.score p1 = ScanResponse.score p2
  /\ ScanResponse.priorities p1 = ScanResponse.priorities p2.
Proof.
  intros C1 C2.
  destruct (completes_inv _ _ _ _ C1) as [s1 [t1 [_ [_ ->]]]].
  destruct (completes_inv _ _ _ _ C2) as [s2 [t2 [_ [_ ->]]]].
  destruct (httpsSignal (net1 _ _)) as [he1 hh1].
  destruct (httpsSignal (net2 _ _)) as [he2 hh2].
  cbn [fst snd scanResult ScanResponse.httpsEnabled ScanResponse.httpRedirectsToHttps
       ScanResponse.headers ScanResponse.findings ScanResponse.score
       ScanResponse.priorities].
  intros -> -> P. unfold presence in P.
  cbn [SecurityHeaders.hsts SecurityHeaders.csp SecurityHeaders.xFrameOptions
       SecurityHeaders.xContentTypeOptions SecurityHeaders.referrerPolicy
       SecurityHeaders.permissionsPolicy] in P.
  injection P as E1 E2 E3 E4 E5 E6.
  rewrite (findings_by_presence _ _ _ _ _ _ _ _ _ _ _ _ _ _ E1 E2 E3 E4 E5 E6).
  repeat split.
Qed.

Lemma findings_depend_on_presence_only_witness :
  let hs1 := [("Strict-Transport-Security", "max-age=0")] in
  let hs2 := [("strict-transport-security", "max-age=63072000; preload");
              ("X-Frame-Options", EmptyString)] in
  let p1 := scanResult "example.com" true (Some hs1) false in
  let p2 := scanResult "tienda.example" true (Some hs2) false in
  completes Sample.newURL (Sample.site (Sample.answers 200 hs1) Sample.rejected)
    (Sample.request "example.com") p1
  /\ completes Sample.newURL (Sample.site (Sample.answers 302 hs2) (Sample.answers 200 []))
       (Sample.request "tienda.example/cesta") p2
  /\ ScanResponse.httpsEnabled p1 = ScanResponse.httpsEnabled p2
  /\ ScanResponse.httpRedirectsToHttps p1 = ScanResponse.httpRedirectsToHttps p2
  /\ presence (ScanResponse.headers p1) = presence (ScanResponse.headers p2)
  /\ (ScanResponse.findings p1 = ScanResponse.findings p2
      /\ ScanResponse.score p1 = ScanResponse.score p2
      /\ ScanResponse.priorities p1 = ScanResponse.priorities p2).
Proof.
  intros hs1 hs2 p1 p2.
  assert (C1 : completes Sample.newURL
                 (Sample.site (Sample.answers 200 hs1) Sample.rejected)
                 (Sample.request "example.com") p1)
    by (eexists; vm_compute; reflexivity).
  assert (C2 : completes Sample.newURL
                 (Sample.site (Sample.answers 302 hs2) (Sample.answers 200 []))
                 (Sample.request "tienda.example/cesta") p2)
    by (eexists; vm_compute; reflexivity).
  assert (P : presence (ScanResponse.headers p1) = presence (ScanResponse.headers p2))
    by (vm_compute; reflexivity).
  split; [exact C1 | split; [exact C2 | split; [reflexivity | split; [reflexivity |
    split; [exact P|]]]]].
  exact (findings_depend_on_presence_only _ _ _ _ _ _ _ _ C1 C2 eq_refl eq_refl P).
Defined.

(** ** Keys are distinct *)

(** Dropping findings keeps their keys distinct. *)
Lemma distinct_keys_filter (keep : Finding.t -> bool) (fs : list Finding.t) :
  NoDup (map Finding.key fs) -> NoDup (map Finding.key (filter keep fs)).
Proof.
  induction fs as [|f fs IH]; simpl; intros H; [constructor|].
  inversion H as [|k ks Hnot Hnd]; subst.
  destruct (keep f); simpl; [|now apply IH].
  constructor; [|now apply IH].
  intros Hin. apply Hnot. apply in_map_iff in Hin. destruct Hin as [g [Hg Hin]].
  apply filter_In in Hin. apply in_map_iff. exists g. tauto.
Qed.

Lemma NoDup_firstn {A : Type} (n : nat) (l : list A) :
  NoDup l -> NoDup (firstn n l).
Proof.
  revert l; induction n as [|n IH]; intros [|x l] H; simpl; try constructor.
  - inversion H; subst. intros Hin. apply firstn_In in Hin. contradiction.
  - inversion H; subst. now apply IH.
Qed.

Lemma findingKeys_NoDup : NoDup findingKeys.
Proof.
  unfold findingKeys.
  repeat (apply NoDup_cons; [simpl; intuition discriminate|]).
  apply NoDup_nil.
Qed.

(** X8.  In every completed scan no two findings have the same key and no two
    priorities have the same key, so the keys identify the entries (the page
    uses them as the keys of its list items). *)
Theorem keys_are_distinct
    (newURL : string -> Completion URL.t)
    (network : string -> Redirect -> Completion Res.t)
    (req : NextRequest.t) (p : ScanResponse.t) :
  completes newURL network req p ->
  NoDup (map Finding.key (ScanResponse.findings p))
  /\ NoDup (map Priority.key (ScanResponse.priorities p)).
Proof.
  intros C. destruct (completes_inv _ _ _ _ C) as [s [t [_ [_ ->]]]].
  destruct (httpsSignal _) as [he hh]. cbn [fst snd]. set (hr := httpSignal _).
  unfold scanResult. cbn [ScanResponse.findings ScanResponse.priorities].
  rewrite priorities_of_findings.
  set (h1 := get hh _). set (h2 := get hh _). set (h3 := get hh _).
  set (h4 := get hh _). set (h5 := get hh _). set (h6 := get hh _).
  pose proof (findings_keys he hr h1 h2 h3 h4 h5 h6) as K.
  set (fs := findings he hr h1 h2 h3 h4 h5 h6) in *.
  assert (N : NoDup (map Finding.key fs)) by (rewrite K; apply findingKeys_NoDup).
  split; [exact N|].
  rewrite map_map. cbn [Priority.key]. rewrite <- firstn_map.
  apply NoDup_firstn. now apply distinct_keys_filter.
Qed.

Lemma keys_are_distinct_witness :
  let p := scanResult "example.com" false None false in
  completes Sample.newURL Sample.offline (Sample.request "https://example.com") p
  /\ (NoDup (map Finding.key (ScanResponse.findings p))
      /\ NoDup (map Priority.key (ScanResponse.priorities p))).
Proof.
  intros p.
  assert (C : completes Sample.newURL Sample.offline
                (Sample.request "https://example.com") p)
    by (eexists; vm_compute; reflexivity).
  split; [exact C|].
  exact (keys_are_distinct _ _ _ _ C).
Defined.

(** ** What the normaliser hands to the parser *)

(** X9.  Whatever the input, the string [normalizeUrl] hands to [new URL]
    starts with http:// or https:// (letter case apart): an input with another
    scheme, such as ftp://host, is not rejected here but prefixed like a bare
    host name. *)
Theorem parsed_string_has_http_scheme (input : string) :
  (startsWithCI "http://" (prefixed input) \/ startsWithCI "https://" (prefixed input))
  /\ (test true re_http_or_https (trim input) = false ->
      prefixed input = ("https://" ++ trim input)%string
      /\ startsWithCI "https://" (prefixed input)).
Proof.
  assert (P : forall x, startsWithCI "https://" ("https://" ++ x)%string)
    by (intros x; exists "https://", x; split; reflexivity).
  unfold prefixed. cbv zeta.
  destruct (test true re_http_or_https (trim input)) eqn:E; cbn [negb].
  - split; [now apply test_re_http_or_https | discriminate].
  - split; [right; apply P | intros _; split; [reflexivity | apply P]].
Qed.

Example other_scheme_is_prefixed :
  prefixed "ftp://example.com" = "https://ftp://example.com"
  /\ normalizeUrl Sample.newURL "ftp://example.com"
     = Normal (ScanTarget.mk "https://ftp:/" "http://ftp:/" "ftp:").
Proof. split; vm_compute; reflexivity. Qed.

(** ** Trimming leaves plain ends alone *)

Lemma isSpace1_code (c : ascii) : isSpace1 c = true -> (code c <= 32)%N.
Proof.
  unfold isSpace1. rewrite orb_true_iff, andb_true_iff, !N.leb_le, N.eqb_eq. lia.
Qed.

Lemma isSpace2_codes (a b : ascii) :
  isSpace2 a b = true -> (code a = 194 /\ code b = 160)%N.
Proof.
  unfold isSpace2. rewrite andb_true_iff, !N.eqb_eq. tauto.
Qed.

Lemma isSpace3_codes (a b c : ascii) :
  isSpace3 a b c = true -> (225 <= code a /\ 128 <= code b /\ 128 <= code c)%N.
Proof.
  unfold isSpace3. cbv zeta.
  rewrite !orb_true_iff, !andb_true_iff, !orb_true_iff, !andb_true_iff,
          !N.eqb_eq, !N.leb_le.
  lia.
Qed.

(** A string that starts with an ASCII character other than white space is
    not stripped; read from the back, the same for its last character. *)
Lemma strip_plain (back : bool) (c : ascii) (r : string) :
  (code c < 128)%N -> isSpace1 c = false ->
  strip back (String c r) = String c r.
Proof.
  intros Hc H1. cbn [strip]. rewrite H1.
  destruct r as [|c2 r2]; [reflexivity|].
  assert (E2 : (if back then isSpace2 c2 c else isSpace2 c c2) = false).
  { destruct back.
    - destruct (isSpace2 c2 c) eqn:E; [apply isSpace2_codes in E; lia | reflexivity].
    - destruct (isSpace2 c c2) eqn:E; [apply isSpace2_codes in E; lia | reflexivity]. }
  rewrite E2. destruct r2 as [|c3 r3]; [reflexivity|].
  assert (E3 : (if back then isSpace3 c3 c2 c else isSpace3 c c2 c3) = false).
  { destruct back.
    - destruct (isSpace3 c3 c2 c) eqn:E; [apply isSpace3_codes in E; lia | reflexivity].
    - destruct (isSpace3 c c2 c3) eqn:E; [apply isSpace3_codes in E; lia | reflexivity]. }
  now rewrite E3.
Qed.

Lemma srev_snoc (x : string) (c : ascii) :
  srev (x ++ String c EmptyString) = String c (srev x).
Proof. rewrite srev_app. reflexivity. Qed.

Lemma trim_plain (c d : ascii) (x : string) :
  (code c < 128)%N -> isSpace1 c = false ->
  (code d < 128)%N -> isSpace1 d = false ->
  trim (String c x ++ String d EmptyString) = (String c x ++ String d EmptyString)%string.
Proof.
  intros Hc Hc1 Hd Hd1. unfold trim, trimStart, trimEnd.
  change (String c x ++ String d EmptyString)%string
    with (String c (x ++ String d EmptyString)).
  rewrite (strip_plain false c _ Hc Hc1).
  change (String c (x ++ String d EmptyString))
    with (String c x ++ String d EmptyString)%string.
  rewrite srev_snoc, (strip_plain true d _ Hd Hd1), <- srev_snoc.
  apply srev_involutive.
Qed.

Lemma prefixed_url (scheme host : string) :
  scheme = "https://" \/ scheme = "http://" ->
  prefixed (scheme ++ host ++ "/") = (scheme ++ host ++ "/")%string.
Proof.
  intros S.
  assert (T : trim (scheme ++ host ++ "/") = (scheme ++ host ++ "/")%string).
  { destruct S as [-> | ->].
    - change ("https://" ++ host ++ "/")%string
        with (String "h" ("ttps://" ++ host ++ "/")).
      rewrite <- (sapp_assoc "ttps://" host "/").
      apply (trim_plain "h" "/"); (reflexivity || (vm_compute; reflexivity)).
    - change ("http://" ++ host ++ "/")%string
        with (String "h" ("ttp://" ++ host ++ "/")).
      rewrite <- (sapp_assoc "ttp://" host "/").
      apply (trim_plain "h" "/"); (reflexivity || (vm_compute; reflexivity)). }
  unfold prefixed. cbv zeta. rewrite T.
  assert (H : test true re_http_or_https (scheme ++ host ++ "/") = true).
  { apply test_re_http_or_https. destruct S as [-> | ->].
    - right. exists "https://", (host ++ "/")%string. split; reflexivity.
    - left. exists "http://", (host ++ "/")%string. split; reflexivity. }
  now rewrite H.
Qed.

(** X10.  The two URLs [normalizeUrl] produces are not changed by its own
    trimming and prefixing: given back as input, each reaches the parser as it
    is.  So when the parser reads from such a URL the host it was built from,
    normalising it again gives the same target. *)
Theorem normalizeUrl_fixes_its_output
    (newURL : string -> Completion URL.t) (input : string) (t : ScanTarget.t) :
  normalizeUrl newURL input = Normal t ->
  prefixed (ScanTarget.httpsUrl t) = ScanTarget.httpsUrl t
  /\ prefixed (ScanTarget.httpUrl t) = ScanTarget.httpUrl t
  /\ (forall again u,
        again = ScanTarget.httpsUrl t \/ again = ScanTarget.httpUrl t ->
        newURL again = Normal u ->
        URL.host u = ScanTarget.host t ->
        normalizeUrl newURL again = Normal t).
Proof.
  unfold normalizeUrl at 1. cbv zeta.
  destruct (newURL (prefixed input)) as [u0|e]; [|discriminate].
  intros [= <-]. cbn [ScanTarget.httpsUrl ScanTarget.httpUrl ScanTarget.host].
  assert (P1 := prefixed_url "https://" (URL.host u0) (or_introl eq_refl)).
  assert (P2 := prefixed_url "http://" (URL.host u0) (or_intror eq_refl)).
  split; [exact P1 | split; [exact P2|]].
  cbn [String.append] in P1, P2 |- *.
  intros again u [-> | ->] Hp Hh; unfold normalizeUrl; cbv zeta.
  - rewrite P1, Hp, Hh. reflexivity.
  - rewrite P2, Hp, Hh. reflexivity.
Qed.

Lemma normalizeUrl_fixes_its_output_witness :
  let t := ScanTarget.mk "https://shop.example:8443/" "http://shop.example:8443/"
                         "shop.example:8443" in
  normalizeUrl Sample.newURL " Shop.Example:8443/cart " = Normal t
  /\ (prefixed (ScanTarget.httpsUrl t) = ScanTarget.httpsUrl t
      /\ prefixed (ScanTarget.httpUrl t) = ScanTarget.httpUrl t
      /\ (forall again u,
            again = ScanTarget.httpsUrl t \/ again = ScanTarget.httpUrl t ->
            Sample.newURL again = Normal u ->
            URL.host u = ScanTarget.host t ->
            normalizeUrl Sample.newURL again = Normal t)).
Proof.
  intros t.
  assert (N : normalizeUrl Sample.newURL " Shop.Example:8443/cart " = Normal t)
    by (vm_compute; reflexivity).
  split; [exact N|].
  exact (normalizeUrl_fixes_its_output Sample.newURL _ t N).
Defined.

(** ** White space around the input *)

Lemma strip_leading_spaces (back : bool) (w s : string) :
  allSpace1 w = true -> strip back (w ++ s) = strip back s.
Proof.
  induction w as [|c r IH]; intros H; [reflexivity|].
  simpl in H. apply andb_true_iff in H. destruct H as [Hc Hr].
  change (String c r ++ s)%string with (String c (r ++ s)).
  cbn [strip]. rewrite Hc. now apply IH.
Qed.

Lemma allSpace1_app (a b : string) :
  allSpace1 (a ++ b) = allSpace1 a && allSpace1 b.
Proof.
  induction a as [|c r IH]; simpl; [reflexivity|].
  now rewrite IH, andb_assoc.
Qed.

Lemma allSpace1_srev (w : string) : allSpace1 (srev w) = allSpace1 w.
Proof.
  induction w as [|c r IH]; [reflexivity|].
  change (srev (String c r)) with (srev_onto r (String c EmptyString)).
  rewrite srev_onto_app. fold (srev r). rewrite allSpace1_app, IH. simpl.
  now rewrite andb_true_r, andb_comm.
Qed.

Lemma trimEnd_trailing_spaces (s w : string) :
  allSpace1 w = true -> trimEnd (s ++ w) = trimEnd s.
Proof.
  intros H. unfold trimEnd. rewrite srev_app, strip_leading_spaces; [reflexivity|].
  now rewrite allSpace1_srev.
Qed.

Lemma strip_all_spaces (back : bool) (w : string) :
  allSpace1 w = true -> strip back w = EmptyString.
Proof.
  intros H. rewrite <- (sapp_empty w). now rewrite strip_leading_spaces.
Qed.

(** A space, tab or line break is no byte of a longer white-space character. *)
Lemma space1_not_in_space2 (x c : ascii) :
  isSpace1 c = true -> isSpace2 x c = false.
Proof.
  intros H. apply isSpace1_code in H.
  destruct (isSpace2 x c) eqn:E; [apply isSpace2_codes in E; lia | reflexivity].
Qed.

Lemma space1_not_in_space3 (x y c : ascii) :
  isSpace1 c = true -> isSpace3 x c y = false /\ isSpace3 x y c = false.
Proof.
  intros H. apply isSpace1_code in H. split.
  - destruct (isSpace3 x c y) eqn:E; [apply isSpace3_codes in E; lia | reflexivity].
  - destruct (isSpace3 x y c) eqn:E; [apply isSpace3_codes in E; lia | reflexivity].
Qed.

(** Stripping the front of [s ++ w] strips the front of [s] and leaves of the
    white space [w] a tail of it. *)
Lemma strip_front_bounded (n : nat) (s w : string) :
  (String.length s <= n)%nat ->
  allSpace1 w = true ->
  exists w', allSpace1 w' = true
             /\ strip false (s ++ w) = (strip false s ++ w')%string.
Proof.
  revert s; induction n as [|n IH]; intros s Hl Hw.
  - destruct s; [|simpl in Hl; lia].
    exists EmptyString. split; [reflexivity|]. simpl. now apply strip_all_spaces.
  - destruct s as [|c1 r1].
    { exists EmptyString. split; [reflexivity|]. simpl. now apply strip_all_spaces. }
    simpl in Hl.
    destruct (isSpace1 c1) eqn:E1.
    { cbn [strip String.append]. rewrite E1. apply IH; [lia | exact Hw]. }
    destruct r1 as [|c2 r2].
    { exists w. split; [exact Hw|]. cbn [strip String.append]. rewrite E1.
      destruct w as [|d1 w1]; [reflexivity|].
      simpl in Hw. apply andb_true_iff in Hw. destruct Hw as [Hd1 Hw1].
      rewrite (space1_not_in_space2 c1 d1 Hd1).
      destruct w1 as [|d2 w2]; [reflexivity|].
      now rewrite (proj1 (space1_not_in_space3 c1 d2 d1 Hd1)). }
    simpl in Hl.
    destruct (isSpace2 c1 c2) eqn:E2.
    { cbn [strip String.append]. rewrite E1, E2. apply IH; [lia | exact Hw]. }
    destruct r2 as [|c3 r3].
    { exists w. split; [exact Hw|]. cbn [strip String.append]. rewrite E1, E2.
      destruct w as [|d1 w1]; [reflexivity|].
      simpl in Hw. apply andb_true_iff in Hw. destruct Hw as [Hd1 Hw1].
      now rewrite (proj2 (space1_not_in_space3 c1 c2 d1 Hd1)). }
    simpl in Hl.
    destruct (isSpace3 c1 c2 c3) eqn:E3.
    { cbn [strip String.append]. rewrite E1, E2, E3. apply IH; [lia | exact Hw]. }
    exists w. split; [exact Hw|].
    cbn [strip String.append]. now rewrite E1, E2, E3.
Qed.

Lemma trim_surrounding_spaces (w1 s w2 : string) :
  allSpace1 w1 = true -> allSpace1 w2 = true ->
  trim (w1 ++ s ++ w2) = trim s.
Proof.
  intros H1 H2. unfold trim, trimStart.
  rewrite strip_leading_spaces by exact H1.
  destruct (strip_front_bounded (String.length s) s w2 (le_n _) H2) as [w' [Hw' E]].
  rewrite E. now apply trimEnd_trailing_spaces.
Qed.

(** X11.  Spaces, tabs and line breaks around the url change nothing: the
    normaliser gives the same target (or throws the same), and for a non-empty
    url the handler gives the same response after the same fetches. *)
Theorem surrounding_space_is_ignored
    (newURL : string -> Completion URL.t)
    (network : string -> Redirect -> Completion Res.t)
    (w1 s w2 : string) :
  allSpace1 w1 = true ->
  allSpace1 w2 = true ->
  normalizeUrl newURL (w1 ++ s ++ w2) = normalizeUrl newURL s
  /\ (forall req1 req2,
        asksFor req1 (w1 ++ s ++ w2)%string -> asksFor req2 s ->
        handle newURL network req1 = handle newURL network req2).
Proof.
  intros H1 H2.
  assert (N : normalizeUrl newURL (w1 ++ s ++ w2) = normalizeUrl newURL s).
  { unfold normalizeUrl, prefixed. cbv zeta.
    now rewrite (trim_surrounding_spaces w1 s w2 H1 H2). }
  split; [exact N|].
  intros req1 req2 A1 A2.
  destruct (normalizeUrl newURL s) as [t|e] eqn:E.
  - rewrite (handle_scan newURL network req1 _ t A1 N).
    rewrite (handle_scan newURL network req2 _ t A2 E). reflexivity.
  - rewrite (handle_invalid newURL network req1 _ e A1 N).
    rewrite (handle_invalid newURL network req2 _ e A2 E). reflexivity.
Qed.

Lemma surrounding_space_is_ignored_witness :
  let w1 := String (ascii_of_N 9) " " in
  let w2 := String (ascii_of_N 32) (String (ascii_of_N 10) EmptyString) in
  allSpace1 w1 = true
  /\ allSpace1 w2 = true
  /\ (normalizeUrl Sample.newURL (w1 ++ "example.com" ++ w2)
      = normalizeUrl Sample.newURL "example.com"
      /\ (forall req1 req2,
            asksFor req1 (w1 ++ "example.com" ++ w2)%string ->
            asksFor req2 "example.com" ->
            handle Sample.newURL Sample.offline req1
            = handle Sample.newURL Sample.offline req2)).
Proof.
  intros w1 w2.
  split; [reflexivity | split; [reflexivity|]].
  exact (surrounding_space_is_ignored Sample.newURL Sample.offline
           w1 "example.com" w2 eq_refl eq_refl).
Defined.

(** * The page *)


Lemma errorOrDefault_nonempty (e : option string) :
  Page.errorOrDefault e <> EmptyString.
Proof.
  unfold Page.errorOrDefault. destruct e as [m|]; [|discriminate].
  destruct (String.eqb_spec m EmptyString); [discriminate | assumption].
Qed.

Lemma asksFor_requestOf (s : Page.State) :
  Page.url s <> EmptyString -> asksFor (Page.requestOf s) (Page.url s).
Proof.
  intros H. eexists. repeat split. exact H.
Qed.

Lemma handle_requestOf_empty
    (newURL : string -> Completion URL.t)
    (network : string -> Redirect -> Completion Res.t) (s : Page.State) :
  Page.url s = EmptyString ->
  handle newURL network (Page.requestOf s)
  = (Normal (Response.mk 400 (ErrorJson "Falta 'url' en el body.")), []).
Proof.
  intros H. unfold handle, POST, Page.requestOf, try_catch, bind, lift.
  cbn. rewrite H. reflexivity.
Qed.

(** X13.  The page over the handler.  With an empty url field the page ends
    with the error "Falta 'url' en el body." and no scan is made; with a url
    that does not parse it ends with the parser's message, or with "Error al
    escanear" when that message is empty; otherwise it ends with no error and
    with the payload of the completed scan as its result. *)
Theorem page_shows_what_POST_answers
    (newURL : string -> Completion URL.t)
    (network : string -> Redirect -> Completion Res.t)
    (s : Page.State) :
  exists res log,
    handle newURL network (Page.requestOf s) = (Normal res, log)
    /\ let s' := Page.handleScan (Page.answerOf res) s in
       (Page.url s = EmptyString ->
        log = [] /\ Page.result s' = None
        /\ Page.error s' = Some "Falta 'url' en el body.")
       /\ (forall e,
             Page.url s <> EmptyString ->
             normalizeUrl newURL (Page.url s) = Throw e ->
             log = [] /\ Page.result s' = None
             /\ Page.error s' = Some (Page.errorOrDefault (Some (errorMessage e))))
       /\ (forall t,
             Page.url s <> EmptyString ->
             normalizeUrl newURL (Page.url s) = Normal t ->
             Page.error s' = None
             /\ exists p, Page.result s' = Some (PayloadJson p)
                          /\ completes newURL network (Page.requestOf s) p).
Proof.
  destruct (String.eqb_spec (Page.url s) EmptyString) as [E|E].
  - eexists. eexists. split; [apply (handle_requestOf_empty newURL network s E)|].
    cbv zeta. split; [|split]; try (intros; contradiction).
    intros _. repeat split.
  - pose proof (asksFor_requestOf s E) as A.
    destruct (normalizeUrl newURL (Page.url s)) as [t|e] eqn:N.
    + eexists. eexists.
      split; [apply (handle_scan newURL network _ _ t A N)|].
      cbv zeta. split; [intros; contradiction | split; [intros; discriminate|]].
      intros t' _ [= <-]. split; [reflexivity|].
      eexists. split; [reflexivity|].
      eexists. apply (handle_scan newURL network _ _ t A N).
    + eexists. eexists.
      split; [apply (handle_invalid newURL network _ _ e A N)|].
      cbv zeta. split; [intros; contradiction | split; [|intros; discriminate]].
      intros e' _ [= <-]. repeat split.
Qed.

Lemma all_ok_iff_no_failures (fs : list Finding.t) :
  failures fs = 0%nat <-> forall f, In f fs -> Finding.ok f = true.
Proof.
  unfold failures. rewrite length_zero_iff_nil, filter_nil_iff. unfold failing.
  split; intros H f Hf; specialize (H f Hf); destruct (Finding.ok f);
    simpl in *; congruence.
Qed.

Lemma renderCard_scan (host : string) (he : bool) (hh : option Headers.t) (hr : bool) :
  exists c,
    Page.renderCard (PayloadJson (scanResult host he hh hr)) = Normal c
    /\ Page.heading c = host
    /\ length (Page.items c) = 8%nat
    /\ NoDup (map Page.itemKey (Page.items c))
    /\ (Page.scoreShown c <= 80)%Z
    /\ (Page.priorityList c = None
        <-> forall it, In it (Page.items c) -> Page.green it = true).
Proof.
  eexists. split; [reflexivity|].
  cbn [Page.heading Page.items Page.scoreShown Page.priorityList
       scanResult ScanResponse.host ScanResponse.score ScanResponse.findings
       ScanResponse.priorities].
  set (h1 := get hh _). set (h2 := get hh _). set (h3 := get hh _).
  set (h4 := get hh _). set (h5 := get hh _). set (h6 := get hh _).
  rewrite score_of_findings, priorities_of_findings.
  pose proof (findings_keys he hr h1 h2 h3 h4 h5 h6) as K.
  pose proof (findings_length he hr h1 h2 h3 h4 h5 h6) as L.
  set (fs := findings he hr h1 h2 h3 h4 h5 h6) in *.
  refine (conj _ (conj _ (conj _ (conj _ _)))).
  - reflexivity.
  - now rewrite length_map.
  - rewrite map_map. change (NoDup (map Finding.key fs)). rewrite K.
    apply findingKeys_NoDup.
  - lia.
  - rewrite length_map, length_firstn. fold (failures fs).
    assert (G : (forall it, In it (map Page.renderItem fs) -> Page.green it = true)
                <-> failures fs = 0%nat).
    { rewrite all_ok_iff_no_failures. split.
      - intros H f Hf. apply (H (Page.renderItem f)). now apply in_map.
      - intros H it Hit. apply in_map_iff in Hit. destruct Hit as [f [<- Hf]].
        cbn. now apply H. }
    rewrite G.
    destruct (0 <? Z.of_nat (Nat.min 3 (failures fs)))%Z eqn:E.
    + apply Z.ltb_lt in E. split; [discriminate | lia].
    + apply Z.ltb_ge in E. split; [lia | reflexivity].
Qed.

(** X14.  The page renders whatever the handler answers without throwing.  The
    button is enabled again and the input shows the url; either the error line
    or the result card is shown, never both and never neither.  A card has
    eight items with distinct keys, shows a score of at most 80 before "/100",
    and shows the list of priorities exactly when some item is not green. *)
Theorem page_renders_what_POST_answers
    (newURL : string -> Completion URL.t)
    (network : string -> Redirect -> Completion Res.t)
    (s : Page.State) :
  exists res log v,
    handle newURL network (Page.requestOf s) = (Normal res, log)
    /\ Page.render (Page.handleScan (Page.answerOf res) s) = Normal v
    /\ Page.buttonDisabled v = false
    /\ Page.inputValue v = Page.url s
    /\ (Page.errorLine v = None <-> Page.card v <> None)
    /\ (forall c,
          Page.card v = Some c ->
          length (Page.items c) = 8%nat
          /\ NoDup (map Page.itemKey (Page.items c))
          /\ (Page.scoreShown c <= 80)%Z
          /\ (Page.priorityList c = None
              <-> forall it, In it (Page.items c) -> Page.green it = true)).
Proof.
  assert (ErrCase : forall msg,
    exists v,
      Page.render (Page.handleScan
                     (Page.answerOf (Response.mk 400 (ErrorJson msg))) s) = Normal v
      /\ Page.buttonDisabled v = false
      /\ Page.inputValue v = Page.url s
      /\ (Page.errorLine v = None <-> Page.card v <> None)
      /\ (forall c, Page.card v = Some c ->
            length (Page.items c) = 8%nat
            /\ NoDup (map Page.itemKey (Page.items c))
            /\ (Page.scoreShown c <= 80)%Z
            /\ (Page.priorityList c = None
                <-> forall it, In it (Page.items c) -> Page.green it = true))).
  { intros msg. eexists. split; [reflexivity|].
    cbn -[Page.errorOrDefault String.eqb].
    change (Page.dataError (ErrorJson msg)) with (Some msg).
    pose proof (errorOrDefault_nonempty (Some msg)) as NE.
    destruct (String.eqb_spec (Page.errorOrDefault (Some msg)) EmptyString) as [E|E];
      [contradiction|].
    repeat split; try discriminate; try congruence. }
  destruct (handle_cases newURL network (Page.requestOf s)) as [[msg E] | [u [t [A N]]]].
  - destruct (ErrCase msg) as [v Hv]. exists (Response.mk 400 (ErrorJson msg)), [], v.
    split; [exact E | exact Hv].
  - pose proof (handle_scan newURL network _ _ t A N) as H.
    match type of H with
    | _ = (Normal (Response.mk 200 (PayloadJson (scanResult ?h ?he ?hh ?hr))), _) =>
      destruct (renderCard_scan h he hh hr) as [c [Rc [_ Pc]]]
    end.
    eexists. eexists. exists (Page.mkView (Page.url s) false "Escanear" None (Some c)).
    split; [exact H|].
    split.
    + unfold Page.render, Page.handleScan, Page.answerOf. cbn -[scanResult Page.renderCard].
      rewrite Rc. reflexivity.
    + cbn [Page.buttonDisabled Page.inputValue Page.errorLine Page.card].
      refine (conj eq_refl (conj eq_refl (conj _ _))).
      * split; [intros _; discriminate | reflexivity].
      * intros c' [= <-]. exact Pc.
Qed.

(** An empty field, a clean site and an unreachable one, end to end. *)
Example page_examples :
  let run network u :=
    match handle Sample.newURL network
                 (Page.requestOf (Page.setUrl u Page.initial)) with
    | (Normal res, _) =>
      Some (Page.handleScan (Page.answerOf res) (Page.setUrl u Page.initial))
    | (Throw _, _) => None
    end in
  run Sample.offline EmptyString
    = Some (Page.mkState EmptyString false None (Some "Falta 'url' en el body."))
  /\ run Sample.offline " "
     = Some (Page.mkState " " false None (Some "Invalid URL"))
  /\ run Sample.offline "example.com"
     = Some (Page.mkState "example.com" false
               (Some (PayloadJson (scanResult "example.com" false None false))) None)
  /\ Page.handleScan (Page.Unreachable "Failed to fetch") Page.initial
     = Page.mkState EmptyString false None (Some "Failed to fetch").
Proof. repeat split; vm_compute; reflexivity. Qed.

(** * A site without HTTPS *)

(** X15.  When the HTTPS fetch is rejected the scan scores 10 if HTTP
    redirects to HTTPS and 0 otherwise, and it has three priorities, the first
    of which is httpsEnabled: then httpRedirectsToHttps and hsts, or hsts and
    csp when the redirect is in place. *)
Theorem unreachable_https_scores_at_most_10
    (newURL : string -> Completion URL.t)
    (network : string -> Redirect -> Completion Res.t)
    (req : NextRequest.t) (s : string) (t : ScanTarget.t) (e : Thrown) :
  asksFor req s ->
  normalizeUrl newURL s = Normal t ->
  network (ScanTarget.httpsUrl t) follow = Throw e ->
  exists p,
    completes newURL network req p
    /\ ScanResponse.score p
       = (if ScanResponse.httpRedirectsToHttps p then 10 else 0)%Z
    /\ map Priority.key (ScanResponse.priorities p)
       = (if ScanResponse.httpRedirectsToHttps p
          then ["httpsEnabled"; "hsts"; "csp"]
          else ["httpsEnabled"; "httpRedirectsToHttps"; "hsts"]).
Proof.
  intros A N He. eexists. split.
  - eexists. apply (handle_scan newURL network req s t A N).
  - rewrite He. cbn [httpsSignal fst snd].
    destruct (httpSignal (network (ScanTarget.httpUrl t) manual));
      split; reflexivity.
Qed.

Lemma unreachable_https_scores_at_most_10_witness :
  let network :=
    Sample.site Sample.rejected
                (Sample.answers 301 [("Location", "https://www.example.com/")]) in
  let req := Sample.request "example.com" in
  asksFor req "example.com"
  /\ normalizeUrl Sample.newURL "example.com" = Normal Sample.exampleTarget
  /\ network "https://example.com/" follow = Throw (ErrorObject "fetch failed")
  /\ exists p,
       completes Sample.newURL network req p
       /\ ScanResponse.score p
          = (if ScanResponse.httpRedirectsToHttps p then 10 else 0)%Z
       /\ map Priority.key (ScanResponse.priorities p)
          = (if ScanResponse.httpRedirectsToHttps p
             then ["httpsEnabled"; "hsts"; "csp"]
             else ["httpsEnabled"; "httpRedirectsToHttps"; "hsts"]).
Proof.
  intros network req.
  assert (A : asksFor req "example.com") by (eexists; repeat split; discriminate).
  assert (N : normalizeUrl Sample.newURL "example.com" = Normal Sample.exampleTarget)
    by (vm_compute; reflexivity).
  assert (F : network "https://example.com/" follow = Throw (ErrorObject "fetch failed"))
    by reflexivity.
  split; [exact A | split; [exact N | split; [exact F|]]].
  exact (unreachable_https_scores_at_most_10
           Sample.newURL network req _ _ _ A N F).
Defined.
